(** * gossip/remote_iterator_creator.go: the remote iterator creator

    A shallow embedding of the client half of the remote-shard protocol:
    [AliveNodesMap], [ExpBackoffRequest] and the three operations of
    [RemoteIteratorCreator] ([CreateIterator], [FieldDimensions],
    [ExpandSources]).

    The Go code talks to the network, sleeps and owns response bodies.  Here
    these effects are threaded through a [World]: the requests handed to
    [client.Do], the arguments of [time.Sleep], and a store of response
    bodies in which [resp.Body] is a handle, so that reads and [Close] calls
    on one body are seen by every holder of the handle.  Library functions
    ([net/http], [proto], [encoding/json], [viper], [influxql]) are the
    fields of [Externals]; [log.Printf] has no effect on control flow and is
    left out. *)

From Stdlib Require Import ZArith QArith Ascii String List Lia.
From Stdlib.Strings Require Import Byte.
From stdpp Require Import base option list gmap strings pretty.

Set Warnings "-clear-no-such-hyp".

Local Open Scope Z_scope.
Local Open Scope string_scope.
Local Open Scope list_scope.
Local Open Scope stdpp_scope.

(** ** Errors *)

(** Where a library error was raised. *)
Inductive origin : Type :=
| of_NewRequest     (* http.NewRequest *)
| of_transport      (* client.Do *)
| of_body_read      (* reading resp.Body *)
| of_marshal        (* MarshalBinary, proto.Marshal *)
| of_unmarshal      (* UnmarshalBinary, proto.Unmarshal *)
| of_json           (* json Decoder *)
| of_runtime.       (* nil dereference *)

Inductive error : Type :=
| errors_New (msg : string)
    (* errors.New(msg) *)
| Unsupported_iterator_type (iterType : Z)
    (* fmt.Errorf("Unsupported iterator type: %d", iterType) *)
| lib_error (o : origin) (msg : string).
    (* an error value handed back by a library call *)

(** [err.Error()] *)
Definition Error (e : error) : string :=
  match e with
  | errors_New msg => msg
  | Unsupported_iterator_type t => "Unsupported iterator type: " +:+ pretty t
  | lib_error _ msg => msg
  end.

(** A library call that yields either a value or an error. *)
Inductive result (A : Type) : Type :=
| Ok (a : A)
| Err (e : error).
Arguments Ok {A} a.
Arguments Err {A} e.

(** ** Data

    [uint64] values are in [N]: the file compares them and uses them as
    map keys, it does no arithmetic on them. *)

(** The [Store] field is not used by the code of this file. *)
Record RemoteIteratorCreator : Type := {
  ShardID : N;
  NodeID : N
}.

Record NodesList : Type := {
  ID : N;
  IP : string;
  Hostname : string;
  BindAddress : string;
  Alive : bool
}.

(** The zero value, read from a map at an absent key. *)
Definition zero_NodesList : NodesList :=
  {| ID := 0; IP := ""; Hostname := ""; BindAddress := ""; Alive := false |}.

(** A Go map value: [None] is the nil map. *)
Definition map_index (m : option (gmap N NodesList)) (k : N) : NodesList :=
  match m with
  | Some g => default zero_NodesList (g !! k)
  | None => zero_NodesList
  end.

Record Request : Type := {
  Method : string;
  URL : string;
  Payload : option (list byte)
}.

(** [resp.Body] is a handle into the body store of the [World]. *)
Record Response : Type := {
  StatusCode : Z;
  Body : nat
}.

(** A response body: the bytes the peer sends, how many were read, the
    error (if any) that a read hits after the bytes, and the number of
    [Close] calls made on it. *)
Record ReadCloser : Type := {
  content : list byte;
  offset : nat;
  read_error : option error;
  close_calls : nat
}.

(** The messages of the wire protocol are generated code, declared
    outside this file; each record holds the fields this file reads or
    writes. *)
Record ReadShardCommand : Type := {
  rsc_ShardID : N;
  rsc_IteratorOptions : list byte
}.

Record ReadShardCommandResponse : Type := {
  rscr_Type : Z
}.

Record FieldDimensionsCommand : Type := {
  fdc_ShardID : N;
  fdc_Sources : list byte
}.

Record FieldDimensionsCommandResponse : Type := {
  fdcr_Fields : gmap string Z;
  fdcr_Dimensions : list string;
  fdcr_Error : string
}.

Record ExpandSourcesCommand : Type := {
  esc_ShardID : N;
  esc_Sources : list byte
}.

Record ExpandSourcesCommandResponse : Type := {
  escr_Sources : list byte;
  escr_Error : string
}.

(** The four remote iterators are declared outside this file; the
    literals of [CreateIterator] give them one shape: a point decoder
    bound to a body, the closed flag, and the callback that closes a
    body. *)
Record RemoteIterator : Type := {
  PointDecoder : nat;
  Closed : bool;
  CloseReader : nat
}.

Inductive Iterator : Type :=
| RemoteFloatIterator (it : RemoteIterator)
| RemoteIntegerIterator (it : RemoteIterator)
| RemoteStringIterator (it : RemoteIterator)
| RemoteBooleanIterator (it : RemoteIterator).

(** ** The libraries the file calls *)

Record Externals : Type := {
  IteratorOptions : Type;
  Source : Type;
  viper_GetString : string -> string;
  url_QueryEscape : string -> string;
  (* the error of http.NewRequest(method, url, _), if any *)
  NewRequest_error : string -> string -> option error;
  (* client.Do on the n-th round trip of the run: a transport error, or
     status, body bytes and the error that ends the body *)
  transport : nat -> Request -> result (Z * list byte * option error);
  IteratorOptions_MarshalBinary : IteratorOptions -> result (list byte);
  Sources_MarshalBinary : list Source -> result (list byte);
  Sources_UnmarshalBinary : list byte -> result (list Source);
  Marshal_ReadShardCommand : ReadShardCommand -> result (list byte);
  Marshal_FieldDimensionsCommand : FieldDimensionsCommand -> result (list byte);
  Marshal_ExpandSourcesCommand : ExpandSourcesCommand -> result (list byte);
  Unmarshal_ReadShardCommandResponse : list byte -> result ReadShardCommandResponse;
  Unmarshal_FieldDimensionsCommandResponse : list byte -> result FieldDimensionsCommandResponse;
  Unmarshal_ExpandSourcesCommandResponse : list byte -> result ExpandSourcesCommandResponse;
  (* the JSON decoder on a stream: its bytes and the error that ends it *)
  json_Decode : list byte -> option error -> result (list NodesList);
  (* the generated enum constants of ReadShardCommandResponse.Type *)
  ReadShardCommandResponse_FLOAT : Z;
  ReadShardCommandResponse_INTEGER : Z;
  ReadShardCommandResponse_STRING : Z;
  ReadShardCommandResponse_BOOLEAN : Z
}.

(** ** The world and its monad *)

Record World : Type := {
  sent : list Request;         (* requests given to client.Do, oldest first *)
  slept : list Z;              (* time.Sleep arguments (ns), oldest first *)
  bodies : list ReadCloser     (* response bodies, indexed by handle *)
}.

Definition M (A : Type) : Type := World -> A * World.

Definition ret {A} (a : A) : M A := fun w => (a, w).

Definition bind {A B} (m : M A) (k : A -> M B) : M B :=
  fun w => let (a, w') := m w in k a w'.

Notation "x <~ c ;; k" := (bind c (fun x => k))
  (at level 100, c at next level, k at level 200, right associativity).
Notation "c ;;; k" := (bind c (fun _ => k))
  (at level 100, k at level 200, right associativity).

Definition nil_dereference : error :=
  lib_error of_runtime "invalid memory address or nil pointer dereference".

Definition closed_body (rc : ReadCloser) : ReadCloser :=
  {| content := content rc; offset := offset rc;
     read_error := read_error rc; close_calls := S (close_calls rc) |}.

Definition drained_body (rc : ReadCloser) : ReadCloser :=
  {| content := content rc; offset := length (content rc);
     read_error := read_error rc; close_calls := close_calls rc |}.

(** The body [client.Do] opens for a successful round trip. *)
Definition fresh_body (data : list byte) (rerr : option error) : ReadCloser :=
  {| content := data; offset := 0%nat; read_error := rerr; close_calls := 0%nat |}.

Definition set_bodies (w : World) (bs : list ReadCloser) : World :=
  {| sent := sent w; slept := slept w; bodies := bs |}.

(** [time.Sleep(d)] *)
Definition time_Sleep (d : Z) : M unit :=
  fun w => (tt, {| sent := sent w; slept := slept w ++ [d]; bodies := bodies w |}).

(** [body.Close()] *)
Definition Body_Close (b : nat) : M unit :=
  fun w => (tt, set_bodies w (alter closed_body b (bodies w))).

(** [ioutil.ReadAll(body)] reads body [b] to its end: the unread bytes,
    or the error that ends the stream.  Either way nothing is left to
    read.  Handles are made by [client.Do] only, so the handle is in the
    store. *)
Definition ioutil_ReadAll (b : nat) : M (result (list byte)) :=
  fun w =>
    match bodies w !! b with
    | None => (Err nil_dereference, w)
    | Some rc =>
        (match read_error rc with
         | Some e => Err e
         | None => Ok (drop (offset rc) (content rc))
         end,
         set_bodies w (alter drained_body b (bodies w)))
    end.

Section Gossip.

Context (X : Externals).

(** [http.NewRequest(method, url, body)] *)
Definition http_NewRequest (method url : string) (body : option (list byte))
  : result Request :=
  match NewRequest_error X method url with
  | Some e => Err e
  | None => Ok {| Method := method; URL := url; Payload := body |}
  end.

(** [client.Do(req)]: on success the response owns a fresh, unread, open
    body; on a transport error the response is nil.  The one case in
    which [net/http] hands back a response together with an error, a
    failed redirect policy, is not among the outcomes of [transport]. *)
Definition client_Do (req : Request) : M (result Response) :=
  fun w =>
    match transport X (length (sent w)) req with
    | Err e =>
        (Err e,
         {| sent := sent w ++ [req]; slept := slept w; bodies := bodies w |})
    | Ok (status, data, rerr) =>
        (Ok {| StatusCode := status; Body := length (bodies w) |},
         {| sent := sent w ++ [req]; slept := slept w;
            bodies := bodies w ++ [fresh_body data rerr] |})
    end.

(** [json.NewDecoder(body).Decode(&nodeList)]: the decoder parses one
    value from the stream.  Its buffered reads are taken to reach the end
    of the body; only the [offset] of the body depends on this. *)
Definition json_NewDecoder_Decode (b : nat) : M (result (list NodesList)) :=
  fun w =>
    match bodies w !! b with
    | None => (Err nil_dereference, w)
    | Some rc =>
        (json_Decode X (drop (offset rc) (content rc)) (read_error rc),
         set_bodies w (alter drained_body b (bodies w)))
    end.

(** *** ExpBackoffRequest *)

(** [(math.Pow(2, float64(attempt)) - 1) / 2].  For the attempts of the
    loop the float64 operations are exact, so the value is this rational. *)
Definition backoff (attempt : Z) : Q :=
  ((inject_Z (2 ^ attempt) - 1) / 2)%Q.

(** [time.Duration(x)] on a float64: conversion to int64 drops the
    fraction. *)
Definition Duration_of_float64 (x : Q) : Z :=
  Z.quot (Qnum x) (Zpos (Qden x)).

Definition time_Second : Z := 1000000000.

(** int64 multiplication *)
Definition wrap_int64 (z : Z) : Z := (z + 2 ^ 63) mod 2 ^ 64 - 2 ^ 63.
Definition Duration_mul (a b : Z) : Z := wrap_int64 (a * b).

(** The argument of [time.Sleep]:
    [time.Duration(backoff) * time.Second]. *)
Definition backoff_sleep (attempt : Z) : Z :=
  Duration_mul (Duration_of_float64 (backoff attempt)) time_Second.

(** The loop [for attempt := 1; attempt < 6; attempt++], over the values
    [attempt] takes; [resp] and [err] are the variables declared before
    the loop. *)
Fixpoint attempts_loop (f : unit -> result Request) (todo : list Z)
    (resp : option Response) (err : option error)
  : M (option Response * option error) :=
  match todo with
  | [] => ret (resp, err)
  | attempt :: todo' =>
      match f tt with
      | Err e => ret (None, Some e)
      | Ok req =>
          r <~ client_Do req ;;
          match r with
          | Ok resp' => ret (Some resp', None)
          | Err e =>
              time_Sleep (backoff_sleep attempt) ;;;
              attempts_loop f todo' None (Some e)
          end
      end
  end.

Definition ExpBackoffRequest (f : unit -> result Request)
  : M (option Response * option error) :=
  attempts_loop f (seqZ 1 5) None None.

(** *** AliveNodesMap *)

(** The closure [f] of [AliveNodesMap]. *)
Definition AliveNodesMap_request (_ : unit) : result Request :=
  let url := viper_GetString X "CFLUX_ENDPOINT" +:+ "/nodes/" +:+
             url_QueryEscape X (viper_GetString X "CLUSTER") in
  http_NewRequest "GET" url None.

(** [for _, node := range nodeList { nodeMap[node.ID] = node }] from the
    empty map. *)
Definition fill_nodeMap (nodeList : list NodesList) : gmap N NodesList :=
  fold_left (fun nodeMap node => <[ID node := node]> nodeMap) nodeList ∅.

(** A nil [resp] with a nil [err] would be dereferenced by the callers of
    [ExpBackoffRequest]; [ExpBackoffRequest_shape] shows it never returns
    that pair, so the branch marked [nil_dereference] is dead. *)
Definition AliveNodesMap : M (option (gmap N NodesList) * option error) :=
  r <~ ExpBackoffRequest AliveNodesMap_request ;;
  match r with
  | (_, Some err) => ret (None, Some err)
  | (None, None) => ret (None, Some nil_dereference)
  | (Some resp, None) =>
      d <~ json_NewDecoder_Decode (Body resp) ;;
      match d with
      | Err err => ret (None, Some err)
      | Ok nodeList => ret (Some (fill_nodeMap nodeList), None)
      end
  end.

(** *** CreateIterator *)

(** The closures [f] of the three operations: a POST to the bind address
    of [aliveNodes[ric.NodeID]]. *)
Definition rpc_request (aliveNodes : option (gmap N NodesList))
    (ric : RemoteIteratorCreator) (path : string) (data : list byte)
    (_ : unit) : result Request :=
  let url := "http://" +:+ BindAddress (map_index aliveNodes (NodeID ric)) +:+ path in
  http_NewRequest "POST" url (Some data).

(** The [switch iterType] with the iterator literals. *)
Definition select_iterator (iterType : Z) (dec closeBody : nat)
  : option Iterator * option error :=
  let it := {| PointDecoder := dec; Closed := false; CloseReader := closeBody |} in
  if Z.eqb iterType (ReadShardCommandResponse_FLOAT X) then
    (Some (RemoteFloatIterator it), None)
  else if Z.eqb iterType (ReadShardCommandResponse_INTEGER X) then
    (Some (RemoteIntegerIterator it), None)
  else if Z.eqb iterType (ReadShardCommandResponse_STRING X) then
    (Some (RemoteStringIterator it), None)
  else if Z.eqb iterType (ReadShardCommandResponse_BOOLEAN X) then
    (Some (RemoteBooleanIterator it), None)
  else (None, Some (Unsupported_iterator_type iterType)).

Definition CreateIterator (ric : RemoteIteratorCreator) (opt : IteratorOptions X)
  : M (option Iterator * option error) :=
  a <~ AliveNodesMap ;;
  (* [err] is assigned again by the next call before it is read *)
  let aliveNodes := fst a in
  match IteratorOptions_MarshalBinary X opt with
  | Err err => ret (None, Some err)
  | Ok optBinary =>
      let cmd := {| rsc_ShardID := ShardID ric; rsc_IteratorOptions := optBinary |} in
      match Marshal_ReadShardCommand X cmd with
      | Err err => ret (None, Some err)
      | Ok data =>
          r <~ ExpBackoffRequest (rpc_request aliveNodes ric "/read" data) ;;
          match r with
          | (_, Some err) => ret (None, Some err)
          | (None, None) => ret (None, Some nil_dereference)
          | (Some resp, None) =>
              rb <~ ioutil_ReadAll (Body resp) ;;
              match rb with
              | Err err => ret (None, Some err)
              | Ok respBody =>
                  match Unmarshal_ReadShardCommandResponse X respBody with
                  | Err err => ret (None, Some err)
                  | Ok respMessage =>
                      (* dec := influxql.NewPointDecoder(resp.Body);
                         closeBody := func() { resp.Body.Close() } *)
                      ret (select_iterator (rscr_Type respMessage)
                                           (Body resp) (Body resp))
                  end
              end
          end
      end
  end.

(** *** FieldDimensions *)

(** [influxql.DataType(value)] *)
Definition DataType (value : Z) : Z := value.

Definition copy_fields (wire : gmap string Z) : gmap string Z :=
  map_fold (fun key value fields => <[key := DataType value]> fields) ∅ wire.

Definition collect_dimensions (ds : list string) : gset string :=
  fold_left (fun dimensions dimension => {[dimension]} ∪ dimensions) ds ∅.

Definition FieldDimensions_result : Type :=
  option (gmap string Z) * option (gset string) * option error.

(** The statements of [FieldDimensions] from the test of the read error
    to the return, on the outcome [rb] of [ioutil.ReadAll]. *)
Definition FieldDimensions_reply (rb : result (list byte)) : FieldDimensions_result :=
  match rb with
  | Err err => (None, None, Some err)
  | Ok respBody =>
      match Unmarshal_FieldDimensionsCommandResponse X respBody with
      | Err err => (None, None, Some err)
      | Ok respMessage =>
          if String.eqb (fdcr_Error respMessage) "" then
            (Some (copy_fields (fdcr_Fields respMessage)),
             Some (collect_dimensions (fdcr_Dimensions respMessage)),
             None)
          else
            (None, None, Some (errors_New (fdcr_Error respMessage)))
      end
  end.

Definition FieldDimensions (ric : RemoteIteratorCreator) (sources : list (Source X))
  : M FieldDimensions_result :=
  match Sources_MarshalBinary X sources with
  | Err err => ret (None, None, Some err)
  | Ok sourceBinary =>
      let fdc := {| fdc_ShardID := ShardID ric; fdc_Sources := sourceBinary |} in
      match Marshal_FieldDimensionsCommand X fdc with
      | Err err => ret (None, None, Some err)
      | Ok fdcBinary =>
          a <~ AliveNodesMap ;;
          match a with
          | (_, Some err) => ret (None, None, Some err)
          | (aliveNodes, None) =>
              r <~ ExpBackoffRequest
                     (rpc_request aliveNodes ric "/fielddimensions" fdcBinary) ;;
              match r with
              | (_, Some err) => ret (None, None, Some err)
              | (None, None) => ret (None, None, Some nil_dereference)
              | (Some resp, None) =>
                  rb <~ ioutil_ReadAll (Body resp) ;;
                  (* defer resp.Body.Close() is registered here and runs
                     when the function returns *)
                  let out := FieldDimensions_reply rb in
                  Body_Close (Body resp) ;;;
                  ret out
              end
          end
      end
  end.

(** *** ExpandSources *)

(** The statements of [ExpandSources] from the test of the read error to
    the return, on the outcome [rb] of [ioutil.ReadAll].  The nil slice of
    sources is the empty list. *)
Definition ExpandSources_reply (rb : result (list byte))
  : list (Source X) * option error :=
  match rb with
  | Err err => ([], Some err)
  | Ok respBody =>
      match Unmarshal_ExpandSourcesCommandResponse X respBody with
      | Err err => ([], Some err)
      | Ok respMessage =>
          if String.eqb (escr_Error respMessage) "" then
            match Sources_UnmarshalBinary X (escr_Sources respMessage) with
            | Err err => ([], Some err)
            | Ok respSources => (respSources, None)
            end
          else ([], Some (errors_New (escr_Error respMessage)))
      end
  end.

Definition ExpandSources (ric : RemoteIteratorCreator) (sources : list (Source X))
  : M (list (Source X) * option error) :=
  match Sources_MarshalBinary X sources with
  | Err err => ret ([], Some err)
  | Ok sourceBinary =>
      let cmd := {| esc_ShardID := ShardID ric; esc_Sources := sourceBinary |} in
      match Marshal_ExpandSourcesCommand X cmd with
      | Err err => ret ([], Some err)
      | Ok cmdBinary =>
          a <~ AliveNodesMap ;;
          match a with
          | (_, Some err) => ret ([], Some err)
          | (aliveNodes, None) =>
              r <~ ExpBackoffRequest
                     (rpc_request aliveNodes ric "/expandsources" cmdBinary) ;;
              match r with
              | (_, Some err) => ret ([], Some err)
              | (None, None) => ret ([], Some nil_dereference)
              | (Some resp, None) =>
                  rb <~ ioutil_ReadAll (Body resp) ;;
                  (* defer resp.Body.Close() is registered here and runs
                     when the function returns *)
                  let out := ExpandSources_reply rb in
                  Body_Close (Body resp) ;;;
                  ret out
              end
          end
      end
  end.

End Gossip.

(** ** Vocabulary of the statements *)

(** Following the specification's words: the sleeps after failed attempts
    1 to 4 are [(2^k - 1) / 2] seconds, in nanoseconds here. *)
Definition specified_sleeps : list Z :=
  (fun k => (2 ^ k - 1) * time_Second / 2) <$> seqZ 1 4.

(** The request of a call to a node whose bind address is [addr]. *)
Definition post_to (addr path : string) (data : list byte) : Request :=
  {| Method := "POST"; URL := "http://" +:+ addr +:+ path; Payload := Some data |}.

Definition put_node (nodeMap : gmap N NodesList) (node : NodesList)
  : gmap N NodesList := <[ID node := node]> nodeMap.

Definition nil_maps : option (gmap string Z) * option (gset string) := (None, None).

(** The body a point decoder is bound to. *)
Definition decoder_of (it : Iterator) : nat :=
  match it with
  | RemoteFloatIterator r | RemoteIntegerIterator r
  | RemoteStringIterator r | RemoteBooleanIterator r => PointDecoder r
  end.

Section Vocabulary.

Context (X : Externals).

(** What a run of the loop over [todo] from [w] can be, for a builder
    that yields [req]: attempt [j] (from 0) is the first to succeed, or
    all attempts fail. *)
Definition loop_success (req : Request) (todo : list Z) (w : World)
    (r : option Response * option error) (w' : World) : Prop :=
  ∃ (j : nat) status data rerr,
    (j < length todo)%nat ∧
    transport X (length (sent w) + j) req = Ok (status, data, rerr) ∧
    (∀ i, (i < j)%nat → ∃ e, transport X (length (sent w) + i) req = Err e) ∧
    r = (Some {| StatusCode := status; Body := length (bodies w) |}, None) ∧
    w' = {| sent := sent w ++ replicate (S j) req;
            slept := slept w ++ map backoff_sleep (take j todo);
            bodies := bodies w ++ [fresh_body data rerr] |}.

Definition loop_failure (req : Request) (todo : list Z) (err0 : option error)
    (w : World) (r : option Response * option error) (w' : World) : Prop :=
  ∃ err',
    r = (None, err') ∧
    (todo = [] ∧ err' = err0 ∨
     ∃ e, err' = Some e ∧ todo ≠ [] ∧
          transport X (length (sent w) + (length todo - 1)) req = Err e) ∧
    (∀ i, (i < length todo)%nat →
          ∃ e, transport X (length (sent w) + i) req = Err e) ∧
    w' = {| sent := sent w ++ replicate (length todo) req;
            slept := slept w ++ map backoff_sleep todo;
            bodies := bodies w |}.

(** The three ways a call of [ExpBackoffRequest] ends. *)
Inductive backoff_run (f : unit -> result Request) (w : World)
  : option Response * option error → World → Prop :=
| run_builder_error e :
    f tt = Err e →
    backoff_run f w (None, Some e) w
| run_success req j status data rerr :
    f tt = Ok req →
    (j < 5)%nat →
    transport X (length (sent w) + j) req = Ok (status, data, rerr) →
    (∀ i, (i < j)%nat → ∃ e, transport X (length (sent w) + i) req = Err e) →
    backoff_run f w
      (Some {| StatusCode := status; Body := length (bodies w) |}, None)
      {| sent := sent w ++ replicate (S j) req;
         slept := slept w ++ map backoff_sleep (take j (seqZ 1 5));
         bodies := bodies w ++ [fresh_body data rerr] |}
| run_failure req e :
    f tt = Ok req →
    (∀ i, (i < 5)%nat → ∃ e', transport X (length (sent w) + i) req = Err e') →
    transport X (length (sent w) + 4) req = Err e →
    backoff_run f w (None, Some e)
      {| sent := sent w ++ replicate 5 req;
         slept := slept w ++ map backoff_sleep (seqZ 1 5);
         bodies := bodies w |}.

(** The request [AliveNodesMap] builds. *)
Definition directory_request : Request :=
  {| Method := "GET";
     URL := viper_GetString X "CFLUX_ENDPOINT" +:+ "/nodes/" +:+
            url_QueryEscape X (viper_GetString X "CLUSTER");
     Payload := None |}.

(** A call of one of the three operations. *)
Inductive call : Type :=
| Call_CreateIterator (opt : IteratorOptions X)
| Call_FieldDimensions (sources : list (Source X))
| Call_ExpandSources (sources : list (Source X)).

(** The path the call posts to. *)
Definition call_path (c : call) : string :=
  match c with
  | Call_CreateIterator _ => "/read"
  | Call_FieldDimensions _ => "/fielddimensions"
  | Call_ExpandSources _ => "/expandsources"
  end.

(** The serialized command of the call. *)
Definition call_payload (ric : RemoteIteratorCreator) (c : call)
  : result (list byte) :=
  match c with
  | Call_CreateIterator opt =>
      match IteratorOptions_MarshalBinary X opt with
      | Err err => Err err
      | Ok optBinary =>
          Marshal_ReadShardCommand X
            {| rsc_ShardID := ShardID ric; rsc_IteratorOptions := optBinary |}
      end
  | Call_FieldDimensions sources =>
      match Sources_MarshalBinary X sources with
      | Err err => Err err
      | Ok sourceBinary =>
          Marshal_FieldDimensionsCommand X
            {| fdc_ShardID := ShardID ric; fdc_Sources := sourceBinary |}
      end
  | Call_ExpandSources sources =>
      match Sources_MarshalBinary X sources with
      | Err err => Err err
      | Ok sourceBinary =>
          Marshal_ExpandSourcesCommand X
            {| esc_ShardID := ShardID ric; esc_Sources := sourceBinary |}
      end
  end.

(** The error the call returns and the world it leaves. *)
Definition call_outcome (ric : RemoteIteratorCreator) (c : call) (w : World)
  : option error * World :=
  match c with
  | Call_CreateIterator opt =>
      let (r, w') := CreateIterator X ric opt w in (r.2, w')
  | Call_FieldDimensions sources =>
      let (r, w') := FieldDimensions X ric sources w in (r.2, w')
  | Call_ExpandSources sources =>
      let (r, w') := ExpandSources X ric sources w in (r.2, w')
  end.

(** The two operations that read a whole reply. *)
Definition reads_whole_reply (c : call) : bool :=
  match c with
  | Call_CreateIterator _ => false
  | _ => true
  end.

(** [CreateIterator], unfolded after the directory lookup. *)
Definition CreateIterator_rest (ric : RemoteIteratorCreator) (data : list byte)
    (aliveNodes : option (gmap N NodesList)) (w1 : World)
  : (option Iterator * option error) * World :=
  match ExpBackoffRequest X (rpc_request X aliveNodes ric "/read" data) w1 with
  | ((_, Some err), w2) => ((None, Some err), w2)
  | ((None, None), w2) => ((None, Some nil_dereference), w2)
  | ((Some resp, None), w2) =>
      match ioutil_ReadAll (Body resp) w2 with
      | (Err err, w3) => ((None, Some err), w3)
      | (Ok respBody, w3) =>
          match Unmarshal_ReadShardCommandResponse X respBody with
          | Err err => ((None, Some err), w3)
          | Ok respMessage =>
              (select_iterator X (rscr_Type respMessage) (Body resp) (Body resp), w3)
          end
      end
  end.

(** The two metadata operations, unfolded after the directory lookup:
    request, read, deferred close. *)
Definition reply_rest {A} (reply : result (list byte) → A * option error)
    (nil : A) (ric : RemoteIteratorCreator) (path : string) (data : list byte)
    (aliveNodes : option (gmap N NodesList)) (w1 : World)
  : (A * option error) * World :=
  match ExpBackoffRequest X (rpc_request X aliveNodes ric path data) w1 with
  | ((_, Some err), w2) => ((nil, Some err), w2)
  | ((None, None), w2) => ((nil, Some nil_dereference), w2)
  | ((Some resp, None), w2) =>
      let (rb, w3) := ioutil_ReadAll (Body resp) w2 in
      (reply rb, (Body_Close (Body resp) w3).2)
  end.

End Vocabulary.

(** Following the specification's words: with the target node absent
    from the resolved directory, the call fails with an error and no
    request is built from the zero-value node. *)
Definition fails_on_absent_node (X : Externals) (ric : RemoteIteratorCreator)
    (c : call X) (w : World) : Prop :=
  ∀ dir w1,
    AliveNodesMap X w = ((Some dir, None), w1) →
    dir !! NodeID ric = None →
    is_Some (call_outcome X ric c w).1 ∧
    sent (call_outcome X ric c w).2 = sent w1.

(** ** A concrete cluster

    An instance of [Externals] to run the code on: toy wire formats, a
    control plane at [http://cflux:8080] and a scripted network. *)
Module Scenario.

Definition byte_of_N (n : N) : byte := default x00 (Byte.of_N (n mod 256)).

(** [url.QueryEscape]: unreserved characters stay, a space becomes [+],
    every other byte becomes [%XX]. *)
Definition hex_digit (n : N) : Ascii.ascii :=
  Ascii.ascii_of_N (if (n <? 10)%N then 48 + n else 55 + n).

Definition unreserved (c : Ascii.ascii) : bool :=
  let n := Ascii.N_of_ascii c in
  ((48 <=? n) && (n <=? 57) || (65 <=? n) && (n <=? 90) ||
   (97 <=? n) && (n <=? 122) ||
   (n =? 45) || (n =? 95) || (n =? 46) || (n =? 126))%N.

Fixpoint QueryEscape (s : string) : string :=
  match s with
  | EmptyString => EmptyString
  | String c s' =>
      if unreserved c then String c (QueryEscape s')
      else if (Ascii.N_of_ascii c =? 32)%N then String "+"%char (QueryEscape s')
      else String "%"%char (String (hex_digit (Ascii.N_of_ascii c / 16))
                      (String (hex_digit (Ascii.N_of_ascii c mod 16))
                              (QueryEscape s')))
  end.

(** The toy directory format: three bytes per node (identifier, last
    octet of its address, liveness). *)
Definition toy_node (id oct al : byte) : NodesList :=
  let ip := "10.0.0." +:+ pretty (Byte.to_N oct) in
  {| ID := Byte.to_N id; IP := ip; Hostname := "node" +:+ pretty (Byte.to_N id);
     BindAddress := ip +:+ ":9000";
     Alive := negb (Byte.eqb al x00) |}.

Fixpoint toy_nodes (bs : list byte) : result (list NodesList) :=
  match bs with
  | [] => Ok []
  | id :: oct :: al :: rest =>
      match toy_nodes rest with
      | Ok ns => Ok (toy_node id oct al :: ns)
      | Err e => Err e
      end
  | _ => Err (lib_error of_json "unexpected end of JSON input")
  end.

Definition toy_directory (bs : list byte) (rerr : option error)
  : result (list NodesList) :=
  match rerr with
  | Some e => Err e
  | None => toy_nodes bs
  end.

(** The toy envelopes: a tag byte, then the payload. *)
Definition toy_read_response (bs : list byte) : result ReadShardCommandResponse :=
  match bs with
  | tag :: _ => Ok {| rscr_Type := Z.of_N (Byte.to_N tag) |}
  | [] => Err (lib_error of_unmarshal "unexpected EOF")
  end.

Definition toy_fields_response (bs : list byte)
  : result FieldDimensionsCommandResponse :=
  match bs with
  | x00 :: rest =>
      Ok {| fdcr_Fields := {[ "value" := 1 ]};
            fdcr_Dimensions := map (fun b => String (Ascii.ascii_of_byte b) "") rest;
            fdcr_Error := "" |}
  | x01 :: rest =>
      Ok {| fdcr_Fields := ∅; fdcr_Dimensions := [];
            fdcr_Error := string_of_list_byte rest |}
  | _ => Err (lib_error of_unmarshal "unexpected EOF")
  end.

Definition toy_sources_response (bs : list byte)
  : result ExpandSourcesCommandResponse :=
  match bs with
  | x00 :: rest => Ok {| escr_Sources := rest; escr_Error := "" |}
  | x01 :: rest => Ok {| escr_Sources := []; escr_Error := string_of_list_byte rest |}
  | _ => Err (lib_error of_unmarshal "unexpected EOF")
  end.

Definition config (key : string) : string :=
  if String.eqb key "CFLUX_ENDPOINT" then "http://cflux:8080"
  else if String.eqb key "CLUSTER" then "prod east"
  else "".

(** The cluster, over a network [net]. *)
Definition cluster (net : nat -> Request -> result (Z * list byte * option error))
  : Externals :=
  {| IteratorOptions := list byte;
     Source := byte;
     viper_GetString := config;
     url_QueryEscape := QueryEscape;
     NewRequest_error := fun _ _ => None;
     transport := net;
     IteratorOptions_MarshalBinary := fun opt => Ok opt;
     Sources_MarshalBinary := fun srcs => Ok srcs;
     Sources_UnmarshalBinary := fun bs => Ok bs;
     Marshal_ReadShardCommand := fun cmd =>
       Ok (byte_of_N (rsc_ShardID cmd) :: rsc_IteratorOptions cmd);
     Marshal_FieldDimensionsCommand := fun cmd =>
       Ok (byte_of_N (fdc_ShardID cmd) :: fdc_Sources cmd);
     Marshal_ExpandSourcesCommand := fun cmd =>
       Ok (byte_of_N (esc_ShardID cmd) :: esc_Sources cmd);
     Unmarshal_ReadShardCommandResponse := toy_read_response;
     Unmarshal_FieldDimensionsCommandResponse := toy_fields_response;
     Unmarshal_ExpandSourcesCommandResponse := toy_sources_response;
     json_Decode := toy_directory;
     ReadShardCommandResponse_FLOAT := 0;
     ReadShardCommandResponse_INTEGER := 1;
     ReadShardCommandResponse_STRING := 2;
     ReadShardCommandResponse_BOOLEAN := 3 |}.

Definition start : World := {| sent := []; slept := []; bodies := [] |}.

Definition ric : RemoteIteratorCreator := {| ShardID := 7; NodeID := 2 |}.

Definition refused (n : nat) : error :=
  lib_error of_transport ("dial tcp: connection refused #" +:+ pretty n).

(** Nothing answers. *)
Definition net_down (n : nat) (_ : Request) : result (Z * list byte * option error) :=
  Err (refused n).

Definition directory_url : string := "http://cflux:8080/nodes/prod+east".

(** Nodes 1 (alive) and 2 (not alive). *)
Definition directory_bytes : list byte :=
  [x01; x01; x01; x02; x02; x00].

(** The control plane answers with [dir]; a node answers every POST with
    the body [reply]. *)
Definition net_up (dir reply : list byte) (n : nat) (req : Request)
  : result (Z * list byte * option error) :=
  if String.eqb (Method req) "GET" then Ok (200, dir, None)
  else Ok (200, reply, None).

(** The control plane answers with [dir]; a POST fails the way
    [net/http] fails a URL without host. *)
Definition no_host : error :=
  lib_error of_transport "http: no Host in request URL".

Definition net_no_host (dir : list byte) (n : nat) (req : Request)
  : result (Z * list byte * option error) :=
  if String.eqb (Method req) "GET" then Ok (200, dir, None)
  else Err no_host.

(** Node 1 only. *)
Definition directory_one : list byte := [x01; x01; x01].

(** Node 2 twice: alive at 10.0.0.2, then not alive at 10.0.0.5. *)
Definition directory_twice : list byte :=
  [x02; x02; x01; x01; x01; x01; x02; x05; x00].

End Scenario.

(** ** Further vocabulary and scenarios *)

(** The body the close callback of an iterator closes, and its closed
    flag. *)
Definition closer_of (it : Iterator) : nat :=
  match it with
  | RemoteFloatIterator r | RemoteIntegerIterator r
  | RemoteStringIterator r | RemoteBooleanIterator r => CloseReader r
  end.

Definition closed_flag (it : Iterator) : bool :=
  match it with
  | RemoteFloatIterator r | RemoteIntegerIterator r
  | RemoteStringIterator r | RemoteBooleanIterator r => Closed r
  end.

(** The enum constant of the kind an iterator variant decodes. *)
Definition variant_tag (X : Externals) (it : Iterator) : Z :=
  match it with
  | RemoteFloatIterator _ => ReadShardCommandResponse_FLOAT X
  | RemoteIntegerIterator _ => ReadShardCommandResponse_INTEGER X
  | RemoteStringIterator _ => ReadShardCommandResponse_STRING X
  | RemoteBooleanIterator _ => ReadShardCommandResponse_BOOLEAN X
  end.

(** The time slept, in nanoseconds. *)
Definition total_sleep (ds : list Z) : Z := foldr Z.add 0 ds.

Module Faults.
Import Scenario.

Definition bad_url : error :=
  lib_error of_NewRequest "parse: first path segment in URL cannot contain colon".

Definition bad_sources : error :=
  lib_error of_marshal "invalid source".

(** A builder that cannot build its request. *)
Definition no_request (_ : unit) : result Request := Err bad_url.

(** The cluster of [Scenario.cluster] where [http.NewRequest] rejects
    the URLs of the methods [reject] selects, and where the empty option
    blob and the empty source list do not marshal when [strict] is set. *)
Definition cluster_with (reject : string -> bool) (strict : bool)
    (net : nat -> Request -> result (Z * list byte * option error))
  : Externals :=
  {| IteratorOptions := list byte;
     Source := byte;
     viper_GetString := config;
     url_QueryEscape := QueryEscape;
     NewRequest_error := fun method _ =>
       if reject method then Some bad_url else None;
     transport := net;
     IteratorOptions_MarshalBinary := fun opt =>
       match opt with
       | [] => if strict then Err bad_sources else Ok opt
       | _ => Ok opt
       end;
     Sources_MarshalBinary := fun srcs =>
       match srcs with
       | [] => if strict then Err bad_sources else Ok srcs
       | _ => Ok srcs
       end;
     Sources_UnmarshalBinary := fun bs =>
       match bs with
       | xff :: _ => Err (lib_error of_unmarshal "bad source list")
       | _ => Ok bs
       end;
     Marshal_ReadShardCommand := fun cmd =>
       Ok (byte_of_N (rsc_ShardID cmd) :: rsc_IteratorOptions cmd);
     Marshal_FieldDimensionsCommand := fun cmd =>
       Ok (byte_of_N (fdc_ShardID cmd) :: fdc_Sources cmd);
     Marshal_ExpandSourcesCommand := fun cmd =>
       Ok (byte_of_N (esc_ShardID cmd) :: esc_Sources cmd);
     Unmarshal_ReadShardCommandResponse := toy_read_response;
     Unmarshal_FieldDimensionsCommandResponse := toy_fields_response;
     Unmarshal_ExpandSourcesCommandResponse := toy_sources_response;
     json_Decode := toy_directory;
     ReadShardCommandResponse_FLOAT := 0;
     ReadShardCommandResponse_INTEGER := 1;
     ReadShardCommandResponse_STRING := 2;
     ReadShardCommandResponse_BOOLEAN := 3 |}.

(** The first [j] round trips are refused, then the network is up and
    answers with status [status]. *)
Definition net_after (j : nat) (status : Z) (dir reply : list byte)
    (n : nat) (req : Request) : result (Z * list byte * option error) :=
  if (n <? j)%nat then Err (refused n)
  else if String.eqb (Method req) "GET" then Ok (status, dir, None)
  else Ok (status, reply, None).

Definition cut : error := lib_error of_body_read "unexpected EOF".

(** The control plane answers with [dir]; the body of every reply to a
    POST breaks after the bytes [reply]. *)
Definition net_cut (dir reply : list byte) (n : nat) (req : Request)
  : result (Z * list byte * option error) :=
  if String.eqb (Method req) "GET" then Ok (200, dir, None)
  else Ok (200, reply, Some cut).

(** A directory answer that is not a whole number of records. *)
Definition directory_torn : list byte := [x01; x01].

(** Node 2, not alive, at 10.0.0.9. *)
Definition directory_dead : list byte := [x02; x09; x00].

End Faults.

(** ** The retry loop *)

Section Retry.

Context (X : Externals).

Lemma World_eta (w : World) :
  w = {| sent := sent w; slept := slept w; bodies := bodies w |}.
Proof. by destruct w. Qed.

(** One turn of the loop, unfolded. *)
Lemma attempts_loop_cons (f : unit -> result Request) attempt todo resp err w :
  attempts_loop X f (attempt :: todo) resp err w =
  match f tt with
  | Err e => ((None, Some e), w)
  | Ok req =>
      match transport X (length (sent w)) req with
      | Ok (status, data, rerr) =>
          ((Some {| StatusCode := status; Body := length (bodies w) |}, None),
           {| sent := sent w ++ [req]; slept := slept w;
              bodies := bodies w ++ [fresh_body data rerr] |})
      | Err e =>
          attempts_loop X f todo None (Some e)
            {| sent := sent w ++ [req];
               slept := slept w ++ [backoff_sleep attempt];
               bodies := bodies w |}
      end
  end.
Proof.
  cbn [attempts_loop]. destruct (f tt) as [req|e]; [|done].
  unfold bind, client_Do.
  by destruct (transport X (length (sent w)) req) as [[[status data] rerr]|e].
Qed.

Lemma attempts_loop_run (f : unit -> result Request) (req : Request) :
  f tt = Ok req →
  ∀ todo err0 w,
    loop_success X req todo w (attempts_loop X f todo None err0 w).1
                            (attempts_loop X f todo None err0 w).2 ∨
    loop_failure X req todo err0 w (attempts_loop X f todo None err0 w).1
                                 (attempts_loop X f todo None err0 w).2.
Proof.
  intros Hf todo. induction todo as [|attempt todo IH]; intros err0 w.
  - right. exists err0. cbn. repeat split; auto.
    + intros i Hi. cbn in Hi. lia.
    + rewrite !app_nil_r. apply World_eta.
  - rewrite attempts_loop_cons, Hf.
    destruct (transport X (length (sent w)) req) as [[[status data] rerr]|e] eqn:Ht.
    + left. exists 0%nat, status, data, rerr.
      split; [cbn; lia|]. split; [by rewrite Nat.add_0_r|].
      split; [intros i Hi; lia|]. split; [done|].
      cbn. by rewrite app_nil_r.
    + set (w1 := {| sent := sent w ++ [req]; slept := slept w ++ [backoff_sleep attempt];
                    bodies := bodies w |}).
      assert (Hlen : length (sent w1) = S (length (sent w))).
      { cbn. rewrite length_app. cbn. lia. }
      destruct (IH (Some e) w1) as [Hs|Hfail].
      * left. destruct Hs as (j & status & data & rerr & Hj & Hok & Hbefore & Hr & Hw).
        exists (S j), status, data, rerr. repeat split.
        -- cbn. lia.
        -- rewrite <- Hok, Hlen. f_equal. lia.
        -- intros i Hi. destruct i as [|i].
           ++ exists e. by rewrite Nat.add_0_r.
           ++ destruct (Hbefore i) as [e' He']; [lia|]. exists e'.
              rewrite <- He', Hlen. f_equal. lia.
        -- exact Hr.
        -- rewrite Hw. cbn. by rewrite <- !app_assoc.
      * right. destruct Hfail as (err' & Hr & Hlast & Hall & Hw).
        exists err'. repeat split.
        -- exact Hr.
        -- right. destruct Hlast as [[Hnil Herr]|(e' & Herr & Hne & Htr)].
           ++ subst todo err'. exists e. repeat split; auto.
              cbn. by rewrite Nat.add_0_r.
           ++ exists e'. repeat split; auto.
              rewrite <- Htr, Hlen. f_equal. cbn [length].
              destruct todo; [done|]. cbn. lia.
        -- intros i Hi. destruct i as [|i].
           ++ exists e. by rewrite Nat.add_0_r.
           ++ destruct (Hall i) as [e' He']; [cbn in Hi; lia|]. exists e'.
              rewrite <- He', Hlen. f_equal. lia.
        -- rewrite Hw. cbn. by rewrite <- !app_assoc.
Qed.

Lemma ExpBackoffRequest_run (f : unit -> result Request) (w : World) :
  backoff_run X f w (ExpBackoffRequest X f w).1 (ExpBackoffRequest X f w).2.
Proof.
  unfold ExpBackoffRequest. destruct (f tt) as [req|e] eqn:Hf.
  - destruct (attempts_loop_run f req Hf (seqZ 1 5) None w) as [Hs|Hfail].
    + destruct Hs as (j & status & data & rerr & Hj & Hok & Hbefore & Hr & Hw).
      rewrite Hr, Hw. by eapply run_success.
    + destruct Hfail as (err' & Hr & Hlast & Hall & Hw).
      destruct Hlast as [[Hnil _]|(e & -> & _ & Htr)]; [done|].
      rewrite Hr, Hw. by eapply run_failure.
  - change (seqZ 1 5) with (1 :: seqZ 2 4).
    rewrite attempts_loop_cons, Hf. by apply run_builder_error.
Qed.

(** The pair [(nil, nil)] is never returned: the callers' [resp.Body]
    after the [err != nil] test is safe. *)
Lemma ExpBackoffRequest_shape (f : unit -> result Request) (w : World) :
  (ExpBackoffRequest X f w).1 ≠ (None, None).
Proof. by destruct (ExpBackoffRequest_run f w). Qed.

(** The run in which every attempt fails. *)
Lemma ExpBackoffRequest_all_fail (f : unit -> result Request) req (w : World) :
  f tt = Ok req →
  (∀ i, (i < 5)%nat → ∃ e, transport X (length (sent w) + i) req = Err e) →
  ∃ e, transport X (length (sent w) + 4) req = Err e ∧
       ExpBackoffRequest X f w =
       ((None, Some e),
        {| sent := sent w ++ replicate 5 req;
           slept := slept w ++
             [0; 1000000000; 3000000000; 7000000000; 15000000000];
           bodies := bodies w |}).
Proof.
  intros Hf Hall. pose proof (ExpBackoffRequest_run f w) as Hrun.
  destruct (ExpBackoffRequest X f w) as [r w']. cbn in Hrun.
  inversion Hrun as [e He|req' j status data rerr Hreq Hj Hok _|req' e Hreq _ Htr];
    subst; try congruence.
  - rewrite Hf in Hreq. injection Hreq as <-.
    destruct (Hall j Hj) as [e He]. congruence.
  - rewrite Hf in Hreq. injection Hreq as <-. by exists e.
Qed.

(** The run in which attempt [j] (from 0) is the first to succeed. *)
Lemma ExpBackoffRequest_first_success (f : unit -> result Request) req (w : World)
    (j : nat) status data rerr :
  f tt = Ok req →
  (j < 5)%nat →
  transport X (length (sent w) + j) req = Ok (status, data, rerr) →
  (∀ i, (i < j)%nat → ∃ e, transport X (length (sent w) + i) req = Err e) →
  ExpBackoffRequest X f w =
  ((Some {| StatusCode := status; Body := length (bodies w) |}, None),
   {| sent := sent w ++ replicate (S j) req;
      slept := slept w ++ map backoff_sleep (take j (seqZ 1 5));
      bodies := bodies w ++ [fresh_body data rerr] |}).
Proof.
  intros Hf Hj Hok Hbefore. pose proof (ExpBackoffRequest_run f w) as Hrun.
  destruct (ExpBackoffRequest X f w) as [r w']. cbn in Hrun.
  inversion Hrun as [e He|req' j' status' data' rerr' Hreq Hj' Hok' Hbefore'
                    |req' e Hreq Hall _]; subst; try congruence.
  - rewrite Hf in Hreq. injection Hreq as <-.
    destruct (Nat.lt_trichotomy j j') as [Hlt|[->|Hgt]].
    + destruct (Hbefore' j Hlt) as [e He]. congruence.
    + congruence.
    + destruct (Hbefore j' Hgt) as [e He]. congruence.
  - rewrite Hf in Hreq. injection Hreq as <-.
    destruct (Hall j Hj) as [e' He']. congruence.
Qed.

End Retry.

(** ** The body store *)

Lemma ReadAll_fresh sn sl (bs : list ReadCloser) data rerr :
  ioutil_ReadAll (length bs)
    {| sent := sn; slept := sl; bodies := bs ++ [fresh_body data rerr] |} =
  (match rerr with Some e => Err e | None => Ok data end,
   {| sent := sn; slept := sl;
      bodies := bs ++ [drained_body (fresh_body data rerr)] |}).
Proof.
  unfold ioutil_ReadAll. cbn [bodies].
  rewrite list_lookup_middle by done. unfold set_bodies. cbn [sent slept bodies].
  replace (length bs) with (length bs + 0)%nat at 1 by lia.
  rewrite alter_app_r. by destruct rerr.
Qed.

Lemma Body_Close_last sn sl (bs : list ReadCloser) rc :
  Body_Close (length bs) {| sent := sn; slept := sl; bodies := bs ++ [rc] |} =
  (tt, {| sent := sn; slept := sl; bodies := bs ++ [closed_body rc] |}).
Proof.
  unfold Body_Close, set_bodies. cbn [sent slept bodies].
  replace (length bs) with (length bs + 0)%nat at 1 by lia.
  by rewrite alter_app_r.
Qed.

(** ** The node directory *)

Section Directory.

Context (X : Externals).

Lemma AliveNodesMap_request_inv req :
  AliveNodesMap_request X tt = Ok req → req = (directory_request X).
Proof.
  unfold AliveNodesMap_request, http_NewRequest.
  destruct (NewRequest_error X _ _); [done|]. by intros [= <-].
Qed.

Lemma fold_put_node_other (l : list NodesList) (acc : gmap N NodesList) (k : N) :
  (∀ n, n ∈ l → ID n ≠ k) →
  fold_left put_node l acc !! k = acc !! k.
Proof.
  revert acc. induction l as [|n l IH]; intros acc Hl; [done|].
  cbn [fold_left]. rewrite IH.
  - unfold put_node. apply lookup_insert_ne. apply Hl. by left.
  - intros n' Hn'. apply Hl. by right.
Qed.

Lemma fold_put_node_dom (l : list NodesList) (acc : gmap N NodesList) :
  dom (fold_left put_node l acc) = list_to_set (ID <$> l) ∪ dom acc.
Proof.
  revert acc. induction l as [|n l IH]; intros acc.
  - cbn. set_solver.
  - cbn [fold_left]. rewrite IH. unfold put_node. rewrite dom_insert_L.
    rewrite fmap_cons, list_to_set_cons. set_solver.
Qed.

(** Later records overwrite earlier ones. *)
Lemma fill_nodeMap_last (l1 l2 : list NodesList) (node : NodesList) :
  (∀ n, n ∈ l2 → ID n ≠ ID node) →
  fill_nodeMap (l1 ++ node :: l2) !! ID node = Some node.
Proof.
  intros Hl2. unfold fill_nodeMap.
  change (fun nodeMap node0 => <[ID node0:=node0]> nodeMap) with put_node.
  rewrite fold_left_app. cbn [fold_left].
  rewrite fold_put_node_other by done.
  unfold put_node. apply lookup_insert_eq.
Qed.

(** Every identifier of the array is a key, whatever the liveness flag. *)
Lemma fill_nodeMap_dom (l : list NodesList) :
  dom (fill_nodeMap l) = list_to_set (ID <$> l).
Proof.
  unfold fill_nodeMap.
  change (fun nodeMap node0 => <[ID node0:=node0]> nodeMap) with put_node.
  rewrite fold_put_node_dom. set_solver.
Qed.

(** The values of the directory are records of the array. *)
Lemma fold_put_node_values (l : list NodesList) (acc : gmap N NodesList) k node :
  fold_left put_node l acc !! k = Some node →
  (node ∈ l ∧ ID node = k) ∨ acc !! k = Some node.
Proof.
  revert acc. induction l as [|n l IH]; intros acc H; [by right|].
  cbn [fold_left] in H. destruct (IH _ H) as [[Hin Hid]|Hacc].
  - left. split; [by right|done].
  - unfold put_node in Hacc. destruct (decide (ID n = k)) as [<-|Hne].
    + rewrite lookup_insert_eq in Hacc. injection Hacc as <-. left. split; [by left|done].
    + rewrite lookup_insert_ne in Hacc by done. by right.
Qed.

Lemma fill_nodeMap_values (l : list NodesList) k node :
  fill_nodeMap l !! k = Some node → node ∈ l ∧ ID node = k.
Proof.
  unfold fill_nodeMap.
  change (fun nodeMap node0 => <[ID node0:=node0]> nodeMap) with put_node.
  intros H. by destruct (fold_put_node_values _ _ _ _ H) as [?|?].
Qed.

(** [AliveNodesMap], unfolded by the outcome of its request. *)
Lemma AliveNodesMap_unfold (w : World) :
  AliveNodesMap X w =
  match ExpBackoffRequest X (AliveNodesMap_request X) w with
  | ((_, Some err), w1) => ((None, Some err), w1)
  | ((None, None), w1) => ((None, Some nil_dereference), w1)
  | ((Some resp, None), w1) =>
      match json_NewDecoder_Decode X (Body resp) w1 with
      | (Err err, w2) => ((None, Some err), w2)
      | (Ok nodeList, w2) => ((Some (fill_nodeMap nodeList), None), w2)
      end
  end.
Proof.
  unfold AliveNodesMap, bind at 1.
  destruct (ExpBackoffRequest X (AliveNodesMap_request X) w) as [[[resp|] [err|]] w1];
    try done.
  unfold bind.
  by destruct (json_NewDecoder_Decode X (Body resp) w1) as [[nodeList|err] w2].
Qed.

Lemma json_NewDecoder_Decode_fresh sn sl (bs : list ReadCloser) data rerr :
  json_NewDecoder_Decode X (length bs)
    {| sent := sn; slept := sl; bodies := bs ++ [fresh_body data rerr] |} =
  (json_Decode X data rerr,
   {| sent := sn; slept := sl;
      bodies := bs ++ [drained_body (fresh_body data rerr)] |}).
Proof.
  unfold json_NewDecoder_Decode. cbn [bodies].
  rewrite list_lookup_middle by done. unfold set_bodies. cbn [sent slept bodies].
  replace (length bs) with (length bs + 0)%nat by lia.
  by rewrite alter_app_r.
Qed.

(** The resolution that succeeds at attempt [j] (from 0). *)
Lemma AliveNodesMap_success (w : World) (j : nat) status data rerr nodeList :
  AliveNodesMap_request X tt = Ok (directory_request X) →
  (j < 5)%nat →
  transport X (length (sent w) + j) (directory_request X) = Ok (status, data, rerr) →
  (∀ i, (i < j)%nat →
        ∃ e, transport X (length (sent w) + i) (directory_request X) = Err e) →
  json_Decode X data rerr = Ok nodeList →
  AliveNodesMap X w =
  ((Some (fill_nodeMap nodeList), None),
   {| sent := sent w ++ replicate (S j) (directory_request X);
      slept := slept w ++ map backoff_sleep (take j (seqZ 1 5));
      bodies := bodies w ++ [drained_body (fresh_body data rerr)] |}).
Proof.
  intros Hreq Hj Hok Hbefore Hdec. rewrite AliveNodesMap_unfold.
  rewrite (ExpBackoffRequest_first_success X _ _ w j status data rerr Hreq Hj Hok Hbefore).
  cbn [Body]. rewrite json_NewDecoder_Decode_fresh. by rewrite Hdec.
Qed.

Lemma AliveNodesMap_success_inv (w : World) m w' :
  AliveNodesMap X w = ((Some m, None), w') →
  ∃ (j : nat) status data rerr nodeList,
    AliveNodesMap_request X tt = Ok (directory_request X) ∧
    (j < 5)%nat ∧
    transport X (length (sent w) + j) (directory_request X) = Ok (status, data, rerr) ∧
    (∀ i, (i < j)%nat →
          ∃ e, transport X (length (sent w) + i) (directory_request X) = Err e) ∧
    json_Decode X data rerr = Ok nodeList ∧
    m = fill_nodeMap nodeList ∧
    w' = {| sent := sent w ++ replicate (S j) (directory_request X);
            slept := slept w ++ map backoff_sleep (take j (seqZ 1 5));
            bodies := bodies w ++ [drained_body (fresh_body data rerr)] |}.
Proof.
  rewrite AliveNodesMap_unfold.
  pose proof (ExpBackoffRequest_run X (AliveNodesMap_request X) w) as Hrun.
  destruct (ExpBackoffRequest X (AliveNodesMap_request X) w) as [r w1]. cbn in Hrun.
  inversion Hrun as [e He|req j status data rerr Hreq Hj Hok Hbefore
                    |req e Hreq Hall Htr]; subst; try done.
  pose proof (AliveNodesMap_request_inv _ Hreq) as ->.
  cbn [Body]. rewrite json_NewDecoder_Decode_fresh.
  destruct (json_Decode X data rerr) as [nodeList|e] eqn:Hdec; [|done].
  intros [= <- <-]. by exists j, status, data, rerr, nodeList.
Qed.

(** Every error return of [AliveNodesMap] carries the nil map. *)
Lemma AliveNodesMap_error_nil (w : World) aliveNodes e w1 :
  AliveNodesMap X w = ((aliveNodes, Some e), w1) → aliveNodes = None.
Proof.
  rewrite AliveNodesMap_unfold.
  destruct (ExpBackoffRequest X (AliveNodesMap_request X) w)
    as [[[resp|] [err|]] w0]; try (by intros [= <- _ _]).
  by destruct (json_NewDecoder_Decode X (Body resp) w0) as [[nodeList|err] w2];
    intros [= <- _ _].
Qed.

(** [AliveNodesMap] leaves every close count as it was; a body it opens
    has count 0. *)
Lemma AliveNodesMap_close_calls (w : World) :
  ∃ opened : nat,
    (opened ≤ 1)%nat ∧
    close_calls <$> bodies (AliveNodesMap X w).2 =
    (close_calls <$> bodies w) ++ replicate opened 0%nat.
Proof.
  rewrite AliveNodesMap_unfold.
  pose proof (ExpBackoffRequest_run X (AliveNodesMap_request X) w) as Hrun.
  destruct (ExpBackoffRequest X (AliveNodesMap_request X) w) as [r w1]. cbn in Hrun.
  inversion Hrun as [e He|req j status data rerr Hreq Hj Hok Hbefore
                    |req e Hreq Hall Htr]; subst.
  - exists 0%nat. cbn. split; [lia|]. by rewrite app_nil_r.
  - cbn [Body]. rewrite json_NewDecoder_Decode_fresh.
    exists 1%nat. split; [lia|].
    destruct (json_Decode X data rerr); cbn [snd bodies]; by rewrite fmap_app.
  - exists 0%nat. cbn. split; [lia|]. by rewrite app_nil_r.
Qed.

End Directory.

(** ** The three operations *)

Section Calls.

Context (X : Externals).

Lemma rpc_request_ok aliveNodes ric path data :
  NewRequest_error X "POST"
    ("http://" +:+ BindAddress (map_index aliveNodes (NodeID ric)) +:+ path) = None →
  rpc_request X aliveNodes ric path data tt =
  Ok (post_to (BindAddress (map_index aliveNodes (NodeID ric))) path data).
Proof. unfold rpc_request, http_NewRequest. by intros ->. Qed.

(** A request that is built is sent between one and five times. *)
Lemma ExpBackoffRequest_sent (f : unit -> result Request) req (w : World) :
  f tt = Ok req →
  ∃ k : nat, (1 ≤ k ≤ 5)%nat ∧
    sent (ExpBackoffRequest X f w).2 = sent w ++ replicate k req ∧
    bodies w `prefix_of` bodies (ExpBackoffRequest X f w).2.
Proof.
  intros Hf. pose proof (ExpBackoffRequest_run X f w) as Hrun.
  destruct (ExpBackoffRequest X f w) as [r w']. cbn in Hrun. cbn [snd].
  inversion Hrun as [e He|req' j status data rerr Hreq Hj Hok Hbefore
                    |req' e Hreq Hall Htr]; subst; try congruence.
  - rewrite Hf in Hreq. injection Hreq as <-.
    exists (S j). cbn [sent bodies]. split; [lia|]. split; [done|].
    by apply prefix_app_r.
  - rewrite Hf in Hreq. injection Hreq as <-.
    exists 5%nat. cbn [sent bodies]. split; [lia|]. by split.
Qed.

Lemma CreateIterator_unfold ric opt data (w : World) :
  call_payload X ric (Call_CreateIterator X opt) = Ok data →
  CreateIterator X ric opt w =
  CreateIterator_rest X ric data (AliveNodesMap X w).1.1 (AliveNodesMap X w).2.
Proof.
  unfold call_payload, CreateIterator, CreateIterator_rest, bind at 1.
  destruct (AliveNodesMap X w) as [a w1]. cbn [fst snd].
  destruct (IteratorOptions_MarshalBinary X opt) as [optBinary|]; [|done].
  intros ->. unfold bind at 1.
  destruct (ExpBackoffRequest X _ w1) as [[[resp|] [err|]] w2]; try done.
  unfold bind.
  destruct (ioutil_ReadAll (Body resp) w2) as [[respBody|err] w3]; [|done].
  by destruct (Unmarshal_ReadShardCommandResponse X respBody).
Qed.

Lemma FieldDimensions_unfold ric sources data (w : World) :
  call_payload X ric (Call_FieldDimensions X sources) = Ok data →
  FieldDimensions X ric sources w =
  match AliveNodesMap X w with
  | ((_, Some err), w1) => ((None, None, Some err), w1)
  | ((aliveNodes, None), w1) =>
      reply_rest X (FieldDimensions_reply X) nil_maps ric "/fielddimensions" data
                 aliveNodes w1
  end.
Proof.
  unfold call_payload, FieldDimensions, reply_rest.
  destruct (Sources_MarshalBinary X sources) as [sourceBinary|]; [|done].
  intros ->. unfold bind at 1.
  destruct (AliveNodesMap X w) as [[aliveNodes [err|]] w1]; [done|].
  unfold bind at 1.
  by destruct (ExpBackoffRequest X _ w1) as [[[resp|] [err|]] w2].
Qed.

Lemma ExpandSources_unfold ric sources data (w : World) :
  call_payload X ric (Call_ExpandSources X sources) = Ok data →
  ExpandSources X ric sources w =
  match AliveNodesMap X w with
  | ((_, Some err), w1) => (([], Some err), w1)
  | ((aliveNodes, None), w1) =>
      reply_rest X (ExpandSources_reply X) [] ric "/expandsources" data
                 aliveNodes w1
  end.
Proof.
  unfold call_payload, ExpandSources, reply_rest.
  destruct (Sources_MarshalBinary X sources) as [sourceBinary|]; [|done].
  intros ->. unfold bind at 1.
  destruct (AliveNodesMap X w) as [[aliveNodes [err|]] w1]; [done|].
  unfold bind at 1.
  by destruct (ExpBackoffRequest X _ w1) as [[[resp|] [err|]] w2].
Qed.

End Calls.

(** ** Frames of the body operations *)

Lemma close_calls_drained (bs : list ReadCloser) b :
  close_calls <$> alter drained_body b bs = close_calls <$> bs.
Proof.
  apply list_eq. intros i. rewrite !list_lookup_fmap, list_lookup_alter.
  case_decide; [subst|done]. by destruct (bs !! i).
Qed.

Lemma ReadAll_frame b (w : World) :
  sent (ioutil_ReadAll b w).2 = sent w ∧
  slept (ioutil_ReadAll b w).2 = slept w ∧
  close_calls <$> bodies (ioutil_ReadAll b w).2 = close_calls <$> bodies w.
Proof.
  unfold ioutil_ReadAll. destruct (bodies w !! b) as [rc|]; [|done].
  cbn. by rewrite close_calls_drained.
Qed.

Section Operations.

Context (X : Externals).

(** With the zero-value node, the request goes to the empty address. *)
Lemma call_sends_to_empty_address ric (c : call X) (w : World)
    aliveNodes err w1 data :
  AliveNodesMap X w = ((aliveNodes, err), w1) →
  (err = None ∨ reads_whole_reply X c = false) →
  map_index aliveNodes (NodeID ric) = zero_NodesList →
  call_payload X ric c = Ok data →
  NewRequest_error X "POST" ("http://" +:+ call_path X c) = None →
  ∃ k : nat, (1 ≤ k ≤ 5)%nat ∧
    sent (call_outcome X ric c w).2 =
    sent w1 ++ replicate k (post_to "" (call_path X c) data).
Proof.
  intros Hdir Herr Hzero Hpay Hnew.
  assert (Hf : rpc_request X aliveNodes ric (call_path X c) data tt =
               Ok (post_to "" (call_path X c) data)).
  { rewrite rpc_request_ok; rewrite Hzero; [done|exact Hnew]. }
  destruct (ExpBackoffRequest_sent X _ _ w1 Hf) as (k & Hk & Hsent & _).
  exists k. split; [done|]. rewrite <- Hsent. clear Hsent Hf Hk.
  destruct c as [opt|sources|sources]; unfold call_outcome.
  - rewrite (CreateIterator_unfold X ric opt data w Hpay), Hdir.
    unfold CreateIterator_rest. cbn [fst snd call_path].
    destruct (ExpBackoffRequest X _ w1) as [[[resp|] [e|]] w2]; try done.
    pose proof (ReadAll_frame (Body resp) w2) as (Hs & _).
    destruct (ioutil_ReadAll (Body resp) w2) as [[respBody|e] w3]; [|done].
    by destruct (Unmarshal_ReadShardCommandResponse X respBody).
  - destruct Herr as [->|]; [|done].
    rewrite (FieldDimensions_unfold X ric sources data w Hpay), Hdir.
    unfold reply_rest. cbn [call_path].
    destruct (ExpBackoffRequest X _ w1) as [[[resp|] [e|]] w2]; try done.
    pose proof (ReadAll_frame (Body resp) w2) as (Hs & _).
    by destruct (ioutil_ReadAll (Body resp) w2) as [rb w3].
  - destruct Herr as [->|]; [|done].
    rewrite (ExpandSources_unfold X ric sources data w Hpay), Hdir.
    unfold reply_rest. cbn [call_path].
    destruct (ExpBackoffRequest X _ w1) as [[[resp|] [e|]] w2]; try done.
    pose proof (ReadAll_frame (Body resp) w2) as (Hs & _).
    by destruct (ioutil_ReadAll (Body resp) w2) as [rb w3].
Qed.

(** After a successful round trip the two metadata operations read the
    body and close it once. *)
Lemma reply_rest_closes_once {A} (reply : result (list byte) → A * option error)
    (nil : A) ric path data aliveNodes (w1 : World) resp w2 :
  ExpBackoffRequest X (rpc_request X aliveNodes ric path data) w1 =
    ((Some resp, None), w2) →
  ∃ rc0 rc,
    Body resp = length (bodies w1) ∧
    bodies w2 = bodies w1 ++ [rc0] ∧ close_calls rc0 = 0%nat ∧
    bodies (reply_rest X reply nil ric path data aliveNodes w1).2 =
      bodies w1 ++ [rc] ∧
    close_calls rc = 1%nat.
Proof.
  intros Hrun. unfold reply_rest. rewrite Hrun.
  pose proof (ExpBackoffRequest_run X (rpc_request X aliveNodes ric path data) w1) as Hr.
  rewrite Hrun in Hr. cbn in Hr.
  inversion Hr as [|req j status body rerr Hreq Hj Hok Hbefore|]; subst.
  exists (fresh_body body rerr), (closed_body (drained_body (fresh_body body rerr))).
  cbn [Body]. rewrite ReadAll_fresh, Body_Close_last. by cbn.
Qed.

(** [CreateIterator] closes nothing. *)
Lemma CreateIterator_never_closes ric opt (w : World) :
  ∃ opened : nat, (opened ≤ 2)%nat ∧
    close_calls <$> bodies (CreateIterator X ric opt w).2 =
    (close_calls <$> bodies w) ++ replicate opened 0%nat.
Proof.
  destruct (AliveNodesMap_close_calls X w) as (n1 & Hn1 & Hdir).
  destruct (call_payload X ric (Call_CreateIterator X opt)) as [data|e] eqn:Hpay.
  - rewrite (CreateIterator_unfold X ric opt data w Hpay).
    destruct (AliveNodesMap X w) as [a w1]. cbn [fst snd] in *.
    unfold CreateIterator_rest.
    pose proof (ExpBackoffRequest_run X (rpc_request X a.1 ric "/read" data) w1) as Hr.
    destruct (ExpBackoffRequest X _ w1) as [r w2]. cbn in Hr.
    inversion Hr as [e He|req j status body rerr Hreq Hj Hok Hbefore
                    |req e Hreq Hall Htr]; subst.
    + exists n1. split; [lia|done].
    + cbn [Body]. rewrite ReadAll_fresh.
      exists (n1 + 1)%nat. split; [lia|].
      assert (Hb : close_calls <$> (bodies w1 ++ [drained_body (fresh_body body rerr)]) =
                   (close_calls <$> bodies w) ++ replicate (n1 + 1) 0%nat).
      { rewrite fmap_app, Hdir, replicate_add, <- app_assoc. done. }
      destruct rerr as [e|]; [done|].
      by destruct (Unmarshal_ReadShardCommandResponse X body).
    + exists n1. split; [lia|done].
  - exists n1. split; [lia|]. rewrite <- Hdir. f_equal. f_equal.
    unfold call_payload in Hpay. unfold CreateIterator, bind.
    destruct (AliveNodesMap X w) as [a w1]. cbn [fst snd].
    destruct (IteratorOptions_MarshalBinary X opt) as [optBinary|]; [|done].
    by rewrite Hpay.
Qed.

Lemma select_iterator_decoder iterType dec closeBody it :
  select_iterator X iterType dec closeBody = (Some it, None) →
  decoder_of it = dec.
Proof.
  unfold select_iterator.
  repeat (case_match; [by intros [= <-]|]). done.
Qed.

End Operations.

(** A builder that fails ends the call at once. *)
Lemma ExpBackoffRequest_builder_error_eq (X : Externals)
    (f : unit -> result Request) (e : error) (w : World) :
  f tt = Err e →
  ExpBackoffRequest X f w = ((None, Some e), w).
Proof.
  intros Hf. unfold ExpBackoffRequest.
  change (seqZ 1 5) with (1 :: seqZ 2 4).
  by rewrite attempts_loop_cons, Hf.
Qed.

(** The outcome of a call whose request to the node ends in an error. *)
Lemma call_request_error (X : Externals) ric (c : call X) (w : World)
    data aliveNodes w1 resp e w2 :
  call_payload X ric c = Ok data →
  AliveNodesMap X w = ((aliveNodes, None), w1) →
  ExpBackoffRequest X (rpc_request X aliveNodes ric (call_path X c) data) w1 =
    ((resp, Some e), w2) →
  call_outcome X ric c w = (Some e, w2).
Proof.
  intros Hpay Hdir Hrun.
  destruct c as [opt|sources|sources]; unfold call_outcome;
    cbn [call_path] in Hrun.
  - rewrite (CreateIterator_unfold X ric opt data w Hpay), Hdir.
    unfold CreateIterator_rest. cbn [fst snd]. rewrite Hrun. by destruct resp.
  - rewrite (FieldDimensions_unfold X ric sources data w Hpay), Hdir.
    unfold reply_rest. rewrite Hrun. by destruct resp.
  - rewrite (ExpandSources_unfold X ric sources data w Hpay), Hdir.
    unfold reply_rest. rewrite Hrun. by destruct resp.
Qed.

(** The outcome of a call whose command does not marshal. *)
Lemma call_payload_error (X : Externals) ric (c : call X) (w : World) e :
  call_payload X ric c = Err e →
  (call_outcome X ric c w).1 = Some e.
Proof.
  intros Hpay. destruct c as [opt|sources|sources];
    unfold call_outcome, call_payload in *.
  - unfold CreateIterator, bind.
    destruct (AliveNodesMap X w) as [a w1].
    destruct (IteratorOptions_MarshalBinary X opt) as [optBinary|e'].
    + by rewrite Hpay.
    + by injection Hpay as ->.
  - unfold FieldDimensions.
    destruct (Sources_MarshalBinary X sources) as [sourceBinary|e'].
    + by rewrite Hpay.
    + by injection Hpay as ->.
  - unfold ExpandSources.
    destruct (Sources_MarshalBinary X sources) as [sourceBinary|e'].
    + by rewrite Hpay.
    + by injection Hpay as ->.
Qed.

Section Claims.
Import Scenario.

(** C1 (the code differs): when the request is built and every attempt
    fails, [ExpBackoffRequest] makes exactly five attempts and returns the
    error of the fifth; but it sleeps whole seconds, 0s, 1s, 3s and 7s
    after attempts 1 to 4, not 0.5s, 1.5s, 3.5s and 7.5s, and it sleeps a
    fifth time, 15s, after the last attempt. *)
Theorem ExpBackoffRequest_all_attempts_fail (X : Externals)
    (f : unit -> result Request) (req : Request) (w : World) :
  f tt = Ok req →
  (∀ i, (i < 5)%nat → ∃ e, transport X (length (sent w) + i) req = Err e) →
  ∃ e5,
    transport X (length (sent w) + 4) req = Err e5 ∧
    (ExpBackoffRequest X f w).1 = (None, Some e5) ∧
    sent (ExpBackoffRequest X f w).2 = sent w ++ replicate 5 req ∧
    slept (ExpBackoffRequest X f w).2 =
      slept w ++ [0; 1000000000; 3000000000; 7000000000; 15000000000] ∧
    slept (ExpBackoffRequest X f w).2 ≠ slept w ++ specified_sleeps ∧
    bodies (ExpBackoffRequest X f w).2 = bodies w.
Proof.
  intros Hf Hall.
  destruct (ExpBackoffRequest_all_fail X f req w Hf Hall) as (e5 & Htr & ->).
  exists e5. cbn [fst snd sent slept bodies]. repeat split; try done.
  intros Heq. apply app_inv_head in Heq. discriminate Heq.
Qed.

Lemma ExpBackoffRequest_all_attempts_fail_witness :
  ∃ e5,
    net_down 4%nat (directory_request (cluster net_down)) = Err e5 ∧
    (ExpBackoffRequest (cluster net_down)
       (AliveNodesMap_request (cluster net_down)) start).1 = (None, Some e5) ∧
    sent (ExpBackoffRequest (cluster net_down)
            (AliveNodesMap_request (cluster net_down)) start).2 =
      [] ++ replicate 5 (directory_request (cluster net_down)) ∧
    slept (ExpBackoffRequest (cluster net_down)
             (AliveNodesMap_request (cluster net_down)) start).2 =
      [] ++ [0; 1000000000; 3000000000; 7000000000; 15000000000] ∧
    slept (ExpBackoffRequest (cluster net_down)
             (AliveNodesMap_request (cluster net_down)) start).2 ≠
      [] ++ specified_sleeps ∧
    bodies (ExpBackoffRequest (cluster net_down)
              (AliveNodesMap_request (cluster net_down)) start).2 = [].
Proof.
  apply (ExpBackoffRequest_all_attempts_fail (cluster net_down)
           (AliveNodesMap_request (cluster net_down))
           (directory_request (cluster net_down)) start).
  - reflexivity.
  - intros i Hi. exists (refused (0 + i)). reflexivity.
Defined.

(** C2 (the code differs): when [AliveNodesMap] returns an error,
    [CreateIterator] does not return it: the error is overwritten, the
    nil directory is indexed, and the operation goes on to post, between
    one and five times, to the host-less URL [http:///read]. *)
Theorem CreateIterator_proceeds_after_directory_error (X : Externals)
    (ric : RemoteIteratorCreator) (opt : IteratorOptions X) (w : World)
    aliveNodes e w1 data :
  AliveNodesMap X w = ((aliveNodes, Some e), w1) →
  call_payload X ric (Call_CreateIterator X opt) = Ok data →
  NewRequest_error X "POST" "http:///read" = None →
  ∃ k : nat, (1 ≤ k ≤ 5)%nat ∧
    sent (CreateIterator X ric opt w).2 =
    sent w1 ++ replicate k
      {| Method := "POST"; URL := "http:///read"; Payload := Some data |}.
Proof.
  intros Hdir Hpay Hnew.
  destruct (call_sends_to_empty_address X ric (Call_CreateIterator X opt) w
              aliveNodes (Some e) w1 data) as (k & Hk & Hsent); auto.
  - by rewrite (AliveNodesMap_error_nil X w aliveNodes e w1 Hdir).
  - exists k. split; [done|].
    unfold call_outcome in Hsent.
    destruct (CreateIterator X ric opt w) as [r w']. exact Hsent.
Qed.

Lemma CreateIterator_proceeds_after_directory_error_witness :
  (AliveNodesMap (cluster net_down) start).1 = (None, Some (refused 4)) ∧
  (CreateIterator (cluster net_down) ric [] start).1 = (None, Some (refused 9)) ∧
  (FieldDimensions (cluster net_down) ric [] start).1 =
    (None, None, Some (refused 4)) ∧
  (ExpandSources (cluster net_down) ric [] start).1 = ([], Some (refused 4)) ∧
  ∃ k : nat, (1 ≤ k ≤ 5)%nat ∧
    sent (CreateIterator (cluster net_down) ric [] start).2 =
    replicate 5 (directory_request (cluster net_down)) ++
    replicate k {| Method := "POST"; URL := "http:///read"; Payload := Some [x07] |}.
Proof.
  split; [vm_compute; reflexivity|].
  split; [vm_compute; reflexivity|].
  split; [vm_compute; reflexivity|].
  split; [vm_compute; reflexivity|].
  apply (CreateIterator_proceeds_after_directory_error
           (cluster net_down) ric [] start None (refused 4)
           {| sent := replicate 5 (directory_request (cluster net_down));
              slept := [0; 1000000000; 3000000000; 7000000000; 15000000000];
              bodies := [] |}
           [x07]).
  - vm_compute. reflexivity.
  - reflexivity.
  - reflexivity.
Defined.

(** C3 (the code differs): when the envelope of the reply declares a kind
    that is none of FLOAT, INTEGER, STRING and BOOLEAN, [CreateIterator]
    returns the unsupported-type error, but it returns without closing
    the body of the response: its close count is 0. *)
Theorem CreateIterator_unsupported_type_leaves_body_open (X : Externals)
    (ric : RemoteIteratorCreator) (opt : IteratorOptions X) (w : World)
    data resp w2 respBody w3 respMessage :
  call_payload X ric (Call_CreateIterator X opt) = Ok data →
  ExpBackoffRequest X
    (rpc_request X (AliveNodesMap X w).1.1 ric "/read" data)
    (AliveNodesMap X w).2 = ((Some resp, None), w2) →
  ioutil_ReadAll (Body resp) w2 = (Ok respBody, w3) →
  Unmarshal_ReadShardCommandResponse X respBody = Ok respMessage →
  rscr_Type respMessage ≠ ReadShardCommandResponse_FLOAT X →
  rscr_Type respMessage ≠ ReadShardCommandResponse_INTEGER X →
  rscr_Type respMessage ≠ ReadShardCommandResponse_STRING X →
  rscr_Type respMessage ≠ ReadShardCommandResponse_BOOLEAN X →
  CreateIterator X ric opt w =
    ((None, Some (Unsupported_iterator_type (rscr_Type respMessage))), w3) ∧
  ∃ rc, bodies w3 !! Body resp = Some rc ∧ close_calls rc = 0%nat.
Proof.
  intros Hpay Hrun Hread Hdec Hf Hi Hs Hb.
  rewrite (CreateIterator_unfold X ric opt data w Hpay).
  unfold CreateIterator_rest. rewrite Hrun.
  pose proof (ExpBackoffRequest_run X
                (rpc_request X (AliveNodesMap X w).1.1 ric "/read" data)
                (AliveNodesMap X w).2) as Hr.
  rewrite Hrun in Hr. cbn [fst snd] in Hr.
  inversion Hr as [|req j status body rerr Hreq Hj Hok Hbefore|]; subst.
  rewrite Hread, Hdec. split.
  - unfold select_iterator.
    apply Z.eqb_neq in Hf, Hi, Hs, Hb. by rewrite Hf, Hi, Hs, Hb.
  - cbn [Body] in *. rewrite ReadAll_fresh in Hread.
    injection Hread as _ <-. cbn [bodies].
    exists (drained_body (fresh_body body rerr)).
    by rewrite list_lookup_middle.
Qed.

Lemma CreateIterator_unsupported_type_leaves_body_open_witness :
  CreateIterator (cluster (net_up directory_bytes [x07; x61])) ric [] start =
    ((None, Some (Unsupported_iterator_type 7)),
     {| sent := [directory_request (cluster (net_up directory_bytes [x07; x61]));
                 post_to "10.0.0.2:9000" "/read" [x07]];
        slept := [];
        bodies := [drained_body (fresh_body directory_bytes None);
                   drained_body (fresh_body [x07; x61] None)] |}) ∧
  ∃ rc,
    [drained_body (fresh_body directory_bytes None);
     drained_body (fresh_body [x07; x61] None)] !! 1%nat = Some rc ∧
    close_calls rc = 0%nat.
Proof.
  apply (CreateIterator_unsupported_type_leaves_body_open
           (cluster (net_up directory_bytes [x07; x61])) ric [] start [x07]
           {| StatusCode := 200; Body := 1 |}
           {| sent := [directory_request (cluster (net_up directory_bytes [x07; x61]));
                       post_to "10.0.0.2:9000" "/read" [x07]];
              slept := [];
              bodies := [drained_body (fresh_body directory_bytes None);
                         fresh_body [x07; x61] None] |}
           [x07; x61]
           {| sent := [directory_request (cluster (net_up directory_bytes [x07; x61]));
                       post_to "10.0.0.2:9000" "/read" [x07]];
              slept := [];
              bodies := [drained_body (fresh_body directory_bytes None);
                         drained_body (fresh_body [x07; x61] None)] |}
           {| rscr_Type := 7 |}).
  - reflexivity.
  - vm_compute. reflexivity.
  - vm_compute. reflexivity.
  - reflexivity.
  - discriminate.
  - discriminate.
  - discriminate.
  - discriminate.
Defined.

(** C4 (the claim as stated fails): node 2 is absent from the resolved
    directory, and [FieldDimensions] still builds [http:///fielddimensions]
    from the zero-value node and sends it five times. *)
Lemma absent_node_request_is_sent :
  ¬ fails_on_absent_node (cluster (net_no_host directory_one)) ric
      (Call_FieldDimensions (cluster (net_no_host directory_one)) [x61]) start.
Proof.
  intros H.
  destruct (H (fill_nodeMap [toy_node x01 x01 x01])
              {| sent := [directory_request (cluster (net_no_host directory_one))];
                 slept := [];
                 bodies := [drained_body (fresh_body directory_one None)] |})
    as [_ Hsent].
  - vm_compute. reflexivity.
  - vm_compute. reflexivity.
  - vm_compute in Hsent. discriminate Hsent.
Qed.

(** C4 (amended): when the target node is absent from the resolved
    directory and the HTTP client refuses, as [net/http] does, a request
    whose URL has no host, each of the three operations fails with an
    error, but not before proceeding with the zero-value node: when the
    command marshals and [http.NewRequest] accepts the URL, the operation
    builds the request from the empty bind address, a POST to [http://]
    followed directly by the path, sends it five times, sleeps 0s, 1s,
    3s, 7s and 15s, and returns the error of the fifth attempt. *)
Theorem absent_node_call_fails_after_posting (X : Externals)
    (ric : RemoteIteratorCreator) (c : call X) (w : World) dir w1 :
  AliveNodesMap X w = ((Some dir, None), w1) →
  dir !! NodeID ric = None →
  (∀ n data, ∃ e,
     transport X n
       {| Method := "POST"; URL := "http://" +:+ "" +:+ call_path X c;
          Payload := Some data |} = Err e) →
  is_Some (call_outcome X ric c w).1 ∧
  ∀ data,
    call_payload X ric c = Ok data →
    NewRequest_error X "POST" ("http://" +:+ "" +:+ call_path X c) = None →
    ∃ e5,
      transport X (length (sent w1) + 4)
        {| Method := "POST"; URL := "http://" +:+ "" +:+ call_path X c;
           Payload := Some data |} = Err e5 ∧
      call_outcome X ric c w =
      (Some e5,
       {| sent := sent w1 ++ replicate 5
            {| Method := "POST"; URL := "http://" +:+ "" +:+ call_path X c;
               Payload := Some data |};
          slept := slept w1 ++
            [0; 1000000000; 3000000000; 7000000000; 15000000000];
          bodies := bodies w1 |}).
Proof.
  intros Hdir Habsent Hrefuse.
  assert (Hzero : map_index (Some dir) (NodeID ric) = zero_NodesList).
  { cbn. by rewrite Habsent. }
  assert (Hexact : ∀ data,
    call_payload X ric c = Ok data →
    NewRequest_error X "POST" ("http://" +:+ "" +:+ call_path X c) = None →
    ∃ e5,
      transport X (length (sent w1) + 4) (post_to "" (call_path X c) data) = Err e5 ∧
      call_outcome X ric c w =
      (Some e5,
       {| sent := sent w1 ++ replicate 5 (post_to "" (call_path X c) data);
          slept := slept w1 ++
            [0; 1000000000; 3000000000; 7000000000; 15000000000];
          bodies := bodies w1 |})).
  { intros data Hpay Hnew.
    assert (Hf : rpc_request X (Some dir) ric (call_path X c) data tt =
                 Ok (post_to "" (call_path X c) data)).
    { rewrite rpc_request_ok; rewrite Hzero; [done|exact Hnew]. }
    destruct (ExpBackoffRequest_all_fail X _ _ w1 Hf) as (e5 & Htr & Hrun).
    { intros i _. apply Hrefuse. }
    exists e5. split; [exact Htr|].
    by apply (call_request_error X ric c w data (Some dir) w1 None e5). }
  split; [|exact Hexact].
  destruct (call_payload X ric c) as [data|e] eqn:Hpay.
  - destruct (NewRequest_error X "POST" ("http://" +:+ "" +:+ call_path X c))
      as [e|] eqn:Hnew.
    + assert (Hf : rpc_request X (Some dir) ric (call_path X c) data tt = Err e).
      { unfold rpc_request, http_NewRequest. rewrite Hzero.
        change (BindAddress zero_NodesList) with "". by rewrite Hnew. }
      rewrite (call_request_error X ric c w data (Some dir) w1 None e w1 Hpay Hdir
                 (ExpBackoffRequest_builder_error_eq X _ e w1 Hf)).
      by eexists.
    + destruct (Hexact data eq_refl eq_refl) as (e5 & _ & ->). by eexists.
  - rewrite (call_payload_error X ric c w e Hpay). by eexists.
Qed.

Lemma absent_node_call_fails_after_posting_witness :
  is_Some (call_outcome (cluster (net_no_host directory_one)) ric
             (Call_CreateIterator (cluster (net_no_host directory_one)) [])
             start).1 ∧
  ∀ data,
    call_payload (cluster (net_no_host directory_one)) ric
      (Call_CreateIterator (cluster (net_no_host directory_one)) []) = Ok data →
    NewRequest_error (cluster (net_no_host directory_one)) "POST"
      "http:///read" = None →
    ∃ e5,
      net_no_host directory_one (1 + 4)
        {| Method := "POST"; URL := "http:///read"; Payload := Some data |} =
        Err e5 ∧
      call_outcome (cluster (net_no_host directory_one)) ric
        (Call_CreateIterator (cluster (net_no_host directory_one)) []) start =
      (Some e5,
       {| sent := [directory_request (cluster (net_no_host directory_one))] ++
                  replicate 5
                    {| Method := "POST"; URL := "http:///read";
                       Payload := Some data |};
          slept := [] ++ [0; 1000000000; 3000000000; 7000000000; 15000000000];
          bodies := [drained_body (fresh_body directory_one None)] |}).
Proof.
  apply (absent_node_call_fails_after_posting
           (cluster (net_no_host directory_one)) ric
           (Call_CreateIterator (cluster (net_no_host directory_one)) [])
           start
           (fill_nodeMap [toy_node x01 x01 x01])
           {| sent := [directory_request (cluster (net_no_host directory_one))];
              slept := [];
              bodies := [drained_body (fresh_body directory_one None)] |}).
  - vm_compute. reflexivity.
  - vm_compute. reflexivity.
  - intros n data. exists no_host. reflexivity.
Defined.

(** C5 (the code differs): an iterator returned by [CreateIterator] has
    its point decoder bound to a body that [ioutil.ReadAll] has read to
    the end: the whole body was consumed, not an envelope prefix, and no
    byte is left unread for the decoder. *)
Theorem CreateIterator_reads_whole_body (X : Externals)
    (ric : RemoteIteratorCreator) (opt : IteratorOptions X) (w : World) it w' :
  CreateIterator X ric opt w = ((Some it, None), w') →
  ∃ rc, bodies w' !! decoder_of it = Some rc ∧
        offset rc = length (content rc) ∧
        drop (offset rc) (content rc) = [].
Proof.
  destruct (call_payload X ric (Call_CreateIterator X opt)) as [data|e] eqn:Hpay.
  - rewrite (CreateIterator_unfold X ric opt data w Hpay).
    destruct (AliveNodesMap X w) as [a w1]. cbn [fst snd].
    unfold CreateIterator_rest.
    pose proof (ExpBackoffRequest_run X (rpc_request X a.1 ric "/read" data) w1) as Hr.
    destruct (ExpBackoffRequest X _ w1) as [r w2]. cbn in Hr.
    inversion Hr as [e He|req j status body rerr Hreq Hj Hok Hbefore
                    |req e Hreq Hall Htr]; subst; try done.
    cbn [Body]. rewrite ReadAll_fresh.
    destruct rerr as [e|]; [done|].
    destruct (Unmarshal_ReadShardCommandResponse X body) as [respMessage|e]; [|done].
    intros [= Hsel <-]. apply select_iterator_decoder in Hsel. rewrite Hsel.
    exists (drained_body (fresh_body body None)). cbn [bodies].
    rewrite list_lookup_middle by done. split; [done|]. split; [done|].
    cbn. apply drop_all.
  - unfold call_payload in Hpay. unfold CreateIterator, bind.
    destruct (AliveNodesMap X w) as [a w1]. cbn [fst snd].
    destruct (IteratorOptions_MarshalBinary X opt) as [optBinary|]; [|done].
    by rewrite Hpay.
Qed.

Lemma CreateIterator_reads_whole_body_witness :
  ∃ rc,
    [drained_body (fresh_body directory_bytes None);
     drained_body (fresh_body [x01; x61; x62; x63] None)] !! 1%nat = Some rc ∧
    offset rc = length (content rc) ∧
    drop (offset rc) (content rc) = [].
Proof.
  apply (CreateIterator_reads_whole_body
           (cluster (net_up directory_bytes [x01; x61; x62; x63])) ric [] start
           (RemoteIntegerIterator
              {| PointDecoder := 1; Closed := false; CloseReader := 1 |})
           {| sent := [directory_request
                         (cluster (net_up directory_bytes [x01; x61; x62; x63]));
                       post_to "10.0.0.2:9000" "/read" [x07]];
              slept := [];
              bodies := [drained_body (fresh_body directory_bytes None);
                         drained_body (fresh_body [x01; x61; x62; x63] None)] |}).
  vm_compute. reflexivity.
Defined.

(** C6: when the decoded reply of [FieldDimensions] carries a non-empty
    error string, the operation returns [errors.New] of exactly that
    string, whose message is the string itself, and nil for both maps. *)
Theorem FieldDimensions_remote_error (X : Externals)
    (ric : RemoteIteratorCreator) (sources : list (Source X)) (w : World)
    data aliveNodes w1 resp w2 respBody w3 respMessage :
  call_payload X ric (Call_FieldDimensions X sources) = Ok data →
  AliveNodesMap X w = ((aliveNodes, None), w1) →
  ExpBackoffRequest X (rpc_request X aliveNodes ric "/fielddimensions" data) w1 =
    ((Some resp, None), w2) →
  ioutil_ReadAll (Body resp) w2 = (Ok respBody, w3) →
  Unmarshal_FieldDimensionsCommandResponse X respBody = Ok respMessage →
  fdcr_Error respMessage ≠ "" →
  (FieldDimensions X ric sources w).1 =
    (None, None, Some (errors_New (fdcr_Error respMessage))) ∧
  Error (errors_New (fdcr_Error respMessage)) = fdcr_Error respMessage.
Proof.
  intros Hpay Hdir Hrun Hread Hdec Hne. split; [|done].
  rewrite (FieldDimensions_unfold X ric sources data w Hpay), Hdir.
  unfold reply_rest. rewrite Hrun.
  rewrite Hread. cbn [fst].
  unfold FieldDimensions_reply. rewrite Hdec.
  destruct (String.eqb_spec (fdcr_Error respMessage) ""); [done|done].
Qed.

Lemma FieldDimensions_remote_error_witness :
  (FieldDimensions
     (cluster (net_up directory_bytes (x01 :: list_byte_of_string "shard not found")))
     ric [x61] start).1 =
  (None, None, Some (errors_New "shard not found")) ∧
  Error (errors_New "shard not found") = "shard not found".
Proof.
  apply (FieldDimensions_remote_error
           (cluster (net_up directory_bytes
                       (x01 :: list_byte_of_string "shard not found")))
           ric [x61] start [x07; x61]
           (Some (fill_nodeMap [toy_node x01 x01 x01; toy_node x02 x02 x00]))
           {| sent := [directory_request (cluster net_down)]; slept := [];
              bodies := [drained_body (fresh_body directory_bytes None)] |}
           {| StatusCode := 200; Body := 1 |}
           {| sent := [directory_request (cluster net_down);
                       post_to "10.0.0.2:9000" "/fielddimensions" [x07; x61]];
              slept := [];
              bodies := [drained_body (fresh_body directory_bytes None);
                         fresh_body (x01 :: list_byte_of_string "shard not found")
                                    None] |}
           (x01 :: list_byte_of_string "shard not found")
           {| sent := [directory_request (cluster net_down);
                       post_to "10.0.0.2:9000" "/fielddimensions" [x07; x61]];
              slept := [];
              bodies := [drained_body (fresh_body directory_bytes None);
                         drained_body
                           (fresh_body (x01 :: list_byte_of_string "shard not found")
                                       None)] |}
           {| fdcr_Fields := ∅; fdcr_Dimensions := [];
              fdcr_Error := "shard not found" |}).
  - reflexivity.
  - vm_compute. reflexivity.
  - vm_compute. reflexivity.
  - vm_compute. reflexivity.
  - vm_compute. reflexivity.
  - discriminate.
Defined.

(** C7: [AliveNodesMap] issues a retried GET, without body, to the
    configured endpoint followed by [/nodes/] and the query-escaped
    cluster name, and mirrors the answer.  Whenever the control plane
    refuses the first [j] attempts, [j < 5], and answers the next one
    with an array of node records that decodes, [AliveNodesMap] has sent
    the GET [j + 1] times, has slept after each refusal, and returns the
    array keyed by identifier with a nil error; every successful
    resolution is of this kind.  Every identifier of the array is a key
    and every value is a record of the array: the liveness flag is not
    tested, so nodes that are not alive are in the directory. *)
Theorem AliveNodesMap_mirrors_control_plane (X : Externals) (w : World) :
  let req := {| Method := "GET";
                URL := viper_GetString X "CFLUX_ENDPOINT" +:+ "/nodes/" +:+
                       url_QueryEscape X (viper_GetString X "CLUSTER");
                Payload := None |} in
  (∀ (j : nat) status data rerr nodeList,
     NewRequest_error X "GET" (URL req) = None →
     (j < 5)%nat →
     (∀ i, (i < j)%nat → ∃ e, transport X (length (sent w) + i) req = Err e) →
     transport X (length (sent w) + j) req = Ok (status, data, rerr) →
     json_Decode X data rerr = Ok nodeList →
     (AliveNodesMap X w).1 = (Some (fill_nodeMap nodeList), None) ∧
     sent (AliveNodesMap X w).2 = sent w ++ replicate (S j) req ∧
     slept (AliveNodesMap X w).2 =
       slept w ++ take j [0; 1000000000; 3000000000; 7000000000] ∧
     (∀ node, node ∈ nodeList → is_Some (fill_nodeMap nodeList !! ID node)) ∧
     (∀ id node, fill_nodeMap nodeList !! id = Some node →
                 node ∈ nodeList ∧ ID node = id)) ∧
  (∀ m w',
     AliveNodesMap X w = ((Some m, None), w') →
     ∃ (k : nat) status data rerr nodeList,
       (1 ≤ k ≤ 5)%nat ∧
       sent w' = sent w ++ replicate k req ∧
       (∀ i, (i < k - 1)%nat →
             ∃ e, transport X (length (sent w) + i) req = Err e) ∧
       transport X (length (sent w) + (k - 1)) req = Ok (status, data, rerr) ∧
       json_Decode X data rerr = Ok nodeList ∧
       m = fill_nodeMap nodeList ∧
       (∀ node, node ∈ nodeList → is_Some (m !! ID node)) ∧
       (∀ id node, m !! id = Some node → node ∈ nodeList ∧ ID node = id)).
Proof.
  intros req.
  assert (Hkeys : ∀ nodeList node,
            node ∈ nodeList → is_Some (fill_nodeMap nodeList !! ID node)).
  { intros nodeList node Hin. apply elem_of_dom. rewrite fill_nodeMap_dom.
    apply elem_of_list_to_set, list_elem_of_fmap. by exists node. }
  split.
  - intros j status data rerr nodeList Hnew Hj Hbefore Hok Hdec.
    assert (Hreq : AliveNodesMap_request X tt = Ok (directory_request X)).
    { unfold AliveNodesMap_request, http_NewRequest.
      cbn [URL req] in Hnew. by rewrite Hnew. }
    rewrite (AliveNodesMap_success X w j status data rerr nodeList
               Hreq Hj Hok Hbefore Hdec).
    cbn [fst snd sent slept].
    split; [done|]. split; [done|]. split.
    + f_equal. do 5 (destruct j as [|j]; [reflexivity|]). lia.
    + split; [apply Hkeys|]. intros id node. apply fill_nodeMap_values.
  - intros m w' Hrun.
    destruct (AliveNodesMap_success_inv X w m w' Hrun)
      as (j & status & data & rerr & nodeList & _ & Hj & Hok & Hbefore & Hdec & -> & ->).
    exists (S j), status, data, rerr, nodeList.
    replace (S j - 1)%nat with j by lia.
    split; [lia|]. split; [done|]. split; [done|]. split; [done|].
    split; [done|]. split; [done|].
    split; [apply Hkeys|]. intros id node. apply fill_nodeMap_values.
Qed.

Lemma AliveNodesMap_mirrors_control_plane_witness :
  (AliveNodesMap (cluster (Faults.net_after 2 200 directory_bytes [])) start).1 =
    (Some (fill_nodeMap [toy_node x01 x01 x01; toy_node x02 x02 x00]), None) ∧
  sent (AliveNodesMap (cluster (Faults.net_after 2 200 directory_bytes [])) start).2 =
    [] ++ replicate 3 {| Method := "GET";
                         URL := "http://cflux:8080/nodes/prod+east";
                         Payload := None |} ∧
  slept (AliveNodesMap (cluster (Faults.net_after 2 200 directory_bytes [])) start).2 =
    [] ++ take 2 [0; 1000000000; 3000000000; 7000000000] ∧
  (∀ node, node ∈ [toy_node x01 x01 x01; toy_node x02 x02 x00] →
     is_Some (fill_nodeMap [toy_node x01 x01 x01; toy_node x02 x02 x00]
                !! ID node)) ∧
  (∀ id node,
     fill_nodeMap [toy_node x01 x01 x01; toy_node x02 x02 x00] !! id = Some node →
     node ∈ [toy_node x01 x01 x01; toy_node x02 x02 x00] ∧ ID node = id).
Proof.
  apply (proj1 (AliveNodesMap_mirrors_control_plane
                  (cluster (Faults.net_after 2 200 directory_bytes [])) start)
           2%nat 200 directory_bytes None
           [toy_node x01 x01 x01; toy_node x02 x02 x00]).
  - reflexivity.
  - lia.
  - intros i Hi. exists (refused i).
    destruct i as [|[|i]]; [reflexivity|reflexivity|lia].
  - reflexivity.
  - reflexivity.
Defined.

(** C8: when the answered array holds several records with one
    identifier, the directory maps the identifier to the last of them:
    if no record after [node] in the array has its identifier, the
    directory that [AliveNodesMap] returns maps that identifier to
    [node]. *)
Theorem AliveNodesMap_last_record_wins (X : Externals) (w : World)
    (j : nat) status data rerr (l1 l2 : list NodesList) (node : NodesList) :
  AliveNodesMap_request X tt = Ok (directory_request X) →
  (j < 5)%nat →
  transport X (length (sent w) + j) (directory_request X) = Ok (status, data, rerr) →
  (∀ i, (i < j)%nat →
        ∃ e, transport X (length (sent w) + i) (directory_request X) = Err e) →
  json_Decode X data rerr = Ok (l1 ++ node :: l2) →
  (∀ n, n ∈ l2 → ID n ≠ ID node) →
  ∃ m w', AliveNodesMap X w = ((Some m, None), w') ∧ m !! ID node = Some node.
Proof.
  intros Hreq Hj Hok Hbefore Hdec Hlast.
  eexists _, _. split.
  - by apply (AliveNodesMap_success X w j status data rerr (l1 ++ node :: l2)).
  - by apply fill_nodeMap_last.
Qed.

Lemma AliveNodesMap_last_record_wins_witness :
  ∃ m w',
    AliveNodesMap (cluster (net_up directory_twice [])) start = ((Some m, None), w') ∧
    m !! 2%N = Some (toy_node x02 x05 x00).
Proof.
  apply (AliveNodesMap_last_record_wins
           (cluster (net_up directory_twice [])) start 0 200 directory_twice None
           [toy_node x02 x02 x01; toy_node x01 x01 x01] []
           (toy_node x02 x05 x00)).
  - reflexivity.
  - lia.
  - reflexivity.
  - intros i Hi. lia.
  - reflexivity.
  - intros n Hn. inversion Hn.
Defined.

(** C9: in [FieldDimensions] and [ExpandSources], once the round trip has
    succeeded, the body of the response, which the round trip opened with
    a close count of 0, has a close count of exactly 1 when the operation
    returns, whatever the read and the decoding gave; the bodies opened
    before are unchanged. *)
Theorem reply_body_closed_once (X : Externals) (ric : RemoteIteratorCreator)
    (c : call X) (w : World) data aliveNodes w1 resp w2 :
  reads_whole_reply X c = true →
  call_payload X ric c = Ok data →
  AliveNodesMap X w = ((aliveNodes, None), w1) →
  ExpBackoffRequest X (rpc_request X aliveNodes ric (call_path X c) data) w1 =
    ((Some resp, None), w2) →
  ∃ rc0 rc,
    Body resp = length (bodies w1) ∧
    bodies w2 = bodies w1 ++ [rc0] ∧ close_calls rc0 = 0%nat ∧
    bodies (call_outcome X ric c w).2 = bodies w1 ++ [rc] ∧
    close_calls rc = 1%nat.
Proof.
  intros Hkind Hpay Hdir Hrun.
  destruct c as [opt|sources|sources]; [done| |]; unfold call_outcome.
  - rewrite (FieldDimensions_unfold X ric sources data w Hpay), Hdir.
    destruct (reply_rest_closes_once X (FieldDimensions_reply X) nil_maps
                ric "/fielddimensions" data aliveNodes w1 resp w2 Hrun)
      as (rc0 & rc & H).
    exists rc0, rc.
    by destruct (reply_rest X (FieldDimensions_reply X) nil_maps ric
                   "/fielddimensions" data aliveNodes w1).
  - rewrite (ExpandSources_unfold X ric sources data w Hpay), Hdir.
    destruct (reply_rest_closes_once X (ExpandSources_reply X) []
                ric "/expandsources" data aliveNodes w1 resp w2 Hrun)
      as (rc0 & rc & H).
    exists rc0, rc.
    by destruct (reply_rest X (ExpandSources_reply X) [] ric
                   "/expandsources" data aliveNodes w1).
Qed.

Lemma reply_body_closed_once_witness :
  ∃ rc0 rc,
    1%nat = length [drained_body (fresh_body directory_bytes None)] ∧
    [drained_body (fresh_body directory_bytes None); fresh_body [] None] =
      [drained_body (fresh_body directory_bytes None)] ++ [rc0] ∧
    close_calls rc0 = 0%nat ∧
    bodies (call_outcome (cluster (net_up directory_bytes [])) ric
              (Call_ExpandSources (cluster (net_up directory_bytes [])) [x61])
              start).2 =
      [drained_body (fresh_body directory_bytes None)] ++ [rc] ∧
    close_calls rc = 1%nat.
Proof.
  apply (reply_body_closed_once
           (cluster (net_up directory_bytes [])) ric
           (Call_ExpandSources (cluster (net_up directory_bytes [])) [x61])
           start [x07; x61]
           (Some (fill_nodeMap [toy_node x01 x01 x01; toy_node x02 x02 x00]))
           {| sent := [directory_request (cluster (net_up directory_bytes []))];
              slept := [];
              bodies := [drained_body (fresh_body directory_bytes None)] |}
           {| StatusCode := 200; Body := 1 |}
           {| sent := [directory_request (cluster (net_up directory_bytes []));
                       post_to "10.0.0.2:9000" "/expandsources" [x07; x61]];
              slept := [];
              bodies := [drained_body (fresh_body directory_bytes None);
                         fresh_body [] None] |}).
  - reflexivity.
  - reflexivity.
  - vm_compute. reflexivity.
  - vm_compute. reflexivity.
Defined.

(** C10: [AliveNodesMap] closes no body: after it, every body of the
    store has the close count it had before, and the body it may have
    opened (at most one) has a close count of 0, on success as on any
    failure. *)
Theorem AliveNodesMap_never_closes (X : Externals) (w : World) :
  ∃ opened : nat, (opened ≤ 1)%nat ∧
    close_calls <$> bodies (AliveNodesMap X w).2 =
    (close_calls <$> bodies w) ++ replicate opened 0%nat.
Proof. exact (AliveNodesMap_close_calls X w). Qed.

End Claims.

(** ** Further properties of the retry loop *)

Section RetryCoverage.
Import Scenario Faults.

(** X1: when the request builder fails, [ExpBackoffRequest] returns its
    error at once: no request is sent, nothing is slept, no body is
    opened, and the builder is not tried again. *)
Theorem ExpBackoffRequest_builder_error (X : Externals)
    (f : unit -> result Request) (e : error) (w : World) :
  f tt = Err e →
  ExpBackoffRequest X f w = ((None, Some e), w).
Proof.
  intros Hf. unfold ExpBackoffRequest.
  change (seqZ 1 5) with (1 :: seqZ 2 4).
  by rewrite attempts_loop_cons, Hf.
Qed.

Lemma ExpBackoffRequest_builder_error_witness :
  ExpBackoffRequest (cluster net_down) no_request start =
  ((None, Some bad_url), start).
Proof.
  apply (ExpBackoffRequest_builder_error (cluster net_down) no_request bad_url start).
  reflexivity.
Defined.

(** X2: when attempt [j + 1] is the first that the transport answers,
    whatever the status code of the answer, [ExpBackoffRequest] has sent
    the request [j + 1] times, has slept [j] times, the sleeps of
    attempts 1 to [j], and returns the response with a nil error; the
    body of the response is new in the store, unread and open.  With
    [j = 0] there is one request and no sleep. *)
Theorem ExpBackoffRequest_first_answer (X : Externals)
    (f : unit -> result Request) (req : Request) (w : World)
    (j : nat) status data rerr :
  f tt = Ok req →
  (j < 5)%nat →
  transport X (length (sent w) + j) req = Ok (status, data, rerr) →
  (∀ i, (i < j)%nat → ∃ e, transport X (length (sent w) + i) req = Err e) →
  (ExpBackoffRequest X f w).1 =
    (Some {| StatusCode := status; Body := length (bodies w) |}, None) ∧
  sent (ExpBackoffRequest X f w).2 = sent w ++ replicate (S j) req ∧
  slept (ExpBackoffRequest X f w).2 =
    slept w ++ take j [0; 1000000000; 3000000000; 7000000000] ∧
  bodies (ExpBackoffRequest X f w).2 =
    bodies w ++ [{| content := data; offset := 0; read_error := rerr;
                    close_calls := 0 |}].
Proof.
  intros Hf Hj Hok Hbefore.
  rewrite (ExpBackoffRequest_first_success X f req w j status data rerr
             Hf Hj Hok Hbefore).
  cbn [fst snd sent slept bodies]. repeat split.
  f_equal. do 5 (destruct j as [|j]; [reflexivity|]). lia.
Qed.

Lemma ExpBackoffRequest_first_answer_witness :
  (ExpBackoffRequest (cluster (net_after 2 503 directory_bytes []))
     (AliveNodesMap_request (cluster (net_after 2 503 directory_bytes [])))
     start).1 =
    (Some {| StatusCode := 503; Body := 0 |}, None) ∧
  sent (ExpBackoffRequest (cluster (net_after 2 503 directory_bytes []))
          (AliveNodesMap_request (cluster (net_after 2 503 directory_bytes [])))
          start).2 =
    [] ++ replicate 3 (directory_request (cluster net_down)) ∧
  slept (ExpBackoffRequest (cluster (net_after 2 503 directory_bytes []))
           (AliveNodesMap_request (cluster (net_after 2 503 directory_bytes [])))
           start).2 =
    [] ++ take 2 [0; 1000000000; 3000000000; 7000000000] ∧
  bodies (ExpBackoffRequest (cluster (net_after 2 503 directory_bytes []))
            (AliveNodesMap_request (cluster (net_after 2 503 directory_bytes [])))
            start).2 =
    [] ++ [{| content := directory_bytes; offset := 0; read_error := None;
              close_calls := 0 |}].
Proof.
  apply (ExpBackoffRequest_first_answer
           (cluster (net_after 2 503 directory_bytes []))
           (AliveNodesMap_request (cluster (net_after 2 503 directory_bytes [])))
           (directory_request (cluster net_down)) start 2 503 directory_bytes None).
  - reflexivity.
  - lia.
  - reflexivity.
  - intros i Hi. exists (refused i).
    destruct i as [|[|i]]; [reflexivity|reflexivity|lia].
Defined.

(** X3: whenever [ExpBackoffRequest] returns a nil error, the response
    is not nil and its body is in the store, unread and open: after the
    test of [err] the callers can read [resp.Body].  The nil response
    with a nil error, with which the variables of the function start, is
    never returned. *)
Theorem ExpBackoffRequest_nil_error_has_response (X : Externals)
    (f : unit -> result Request) (w : World) :
  (ExpBackoffRequest X f w).1.2 = None →
  ∃ resp rc,
    (ExpBackoffRequest X f w).1.1 = Some resp ∧
    bodies (ExpBackoffRequest X f w).2 !! Body resp = Some rc ∧
    offset rc = 0%nat ∧ close_calls rc = 0%nat.
Proof.
  destruct (ExpBackoffRequest_run X f w)
    as [e He|req j status data rerr Hreq Hj Hok Hbefore|req e Hreq Hall Htr];
    [done| |done].
  intros _. eexists _, (fresh_body data rerr). cbn [fst snd Body bodies].
  split; [done|]. by rewrite list_lookup_middle.
Qed.

Lemma ExpBackoffRequest_nil_error_has_response_witness :
  ∃ resp rc,
    (ExpBackoffRequest (cluster (net_after 1 200 directory_bytes []))
       (AliveNodesMap_request (cluster (net_after 1 200 directory_bytes [])))
       start).1.1 = Some resp ∧
    bodies (ExpBackoffRequest (cluster (net_after 1 200 directory_bytes []))
              (AliveNodesMap_request (cluster (net_after 1 200 directory_bytes [])))
              start).2 !! Body resp = Some rc ∧
    offset rc = 0%nat ∧ close_calls rc = 0%nat.
Proof.
  apply (ExpBackoffRequest_nil_error_has_response
           (cluster (net_after 1 200 directory_bytes []))
           (AliveNodesMap_request (cluster (net_after 1 200 directory_bytes [])))
           start).
  reflexivity.
Defined.

(** X4: one call of [ExpBackoffRequest] sends at most five requests, all
    of them the request the builder gives, sleeps at most once per
    request sent, never a negative time, and sleeps at most 26 seconds in
    total; it opens at most one body and changes no body of the store. *)
Theorem ExpBackoffRequest_bounded (X : Externals)
    (f : unit -> result Request) (w : World) :
  ∃ (reqs : list Request) (naps : list Z) (opened : list ReadCloser),
    sent (ExpBackoffRequest X f w).2 = sent w ++ reqs ∧
    slept (ExpBackoffRequest X f w).2 = slept w ++ naps ∧
    bodies (ExpBackoffRequest X f w).2 = bodies w ++ opened ∧
    (length reqs ≤ 5)%nat ∧
    (∀ req, req ∈ reqs → f tt = Ok req) ∧
    (length naps ≤ length reqs)%nat ∧
    (∀ d : Z, d ∈ naps → (0 ≤ d)%Z) ∧
    (total_sleep naps ≤ 26000000000)%Z ∧
    (length opened ≤ 1)%nat.
Proof.
  destruct (ExpBackoffRequest_run X f w)
    as [e He|req j status data rerr Hreq Hj Hok Hbefore|req e Hreq Hall Htr].
  - exists [], [], []. cbn. rewrite !app_nil_r.
    repeat split; try done; try lia; intros ? H; inversion H.
  - exists (replicate (S j) req), (map backoff_sleep (take j (seqZ 1 5))),
           [fresh_body data rerr].
    cbn [sent slept bodies snd].
    split; [done|]. split; [done|]. split; [done|].
    split; [rewrite length_replicate; lia|].
    split; [by intros r [-> _]%elem_of_replicate|].
    assert (Hj' : (j = 0 ∨ j = 1 ∨ j = 2 ∨ j = 3 ∨ j = 4)%nat) by lia.
    split; [rewrite length_replicate, length_map, length_take; lia|].
    split.
    + intros d Hd. apply list_elem_of_In in Hd.
      destruct Hj' as [->|[->|[->|[->| ->]]]]; vm_compute in Hd;
        intuition (subst; lia).
    + split; [|cbn; lia].
      destruct Hj' as [->|[->|[->|[->| ->]]]]; by vm_compute.
  - exists (replicate 5 req), (map backoff_sleep (seqZ 1 5)), [].
    cbn [sent slept bodies snd]. rewrite app_nil_r.
    split; [done|]. split; [done|]. split; [done|].
    split; [rewrite length_replicate; lia|].
    split; [by intros r [-> _]%elem_of_replicate|].
    split; [rewrite length_replicate; vm_compute; lia|].
    split.
    + intros d Hd. apply list_elem_of_In in Hd. vm_compute in Hd.
      intuition (subst; lia).
    + split; [by vm_compute|cbn; lia].
Qed.

End RetryCoverage.

(** ** Further properties of the node directory *)

Section DirectoryCoverage.
Import Scenario Faults.

(** X6: when the answer of the control plane does not decode,
    [AliveNodesMap] returns the nil map and the error of the decoder; the
    body of the answer stays in the store with a close count of 0. *)
Theorem AliveNodesMap_decode_error (X : Externals) (w : World)
    (j : nat) status data rerr e :
  AliveNodesMap_request X tt = Ok (directory_request X) →
  (j < 5)%nat →
  transport X (length (sent w) + j) (directory_request X) = Ok (status, data, rerr) →
  (∀ i, (i < j)%nat →
        ∃ e', transport X (length (sent w) + i) (directory_request X) = Err e') →
  json_Decode X data rerr = Err e →
  (AliveNodesMap X w).1 = (None, Some e) ∧
  ∃ rc, bodies (AliveNodesMap X w).2 = bodies w ++ [rc] ∧
        content rc = data ∧ close_calls rc = 0%nat.
Proof.
  intros Hreq Hj Hok Hbefore Hdec. rewrite AliveNodesMap_unfold.
  rewrite (ExpBackoffRequest_first_success X _ _ w j status data rerr
             Hreq Hj Hok Hbefore).
  cbn [Body]. rewrite json_NewDecoder_Decode_fresh, Hdec. cbn [fst snd bodies].
  split; [done|]. by exists (drained_body (fresh_body data rerr)).
Qed.

Lemma AliveNodesMap_decode_error_witness :
  (AliveNodesMap (cluster (net_up directory_torn [])) start).1 =
    (None, Some (lib_error of_json "unexpected end of JSON input")) ∧
  ∃ rc, bodies (AliveNodesMap (cluster (net_up directory_torn [])) start).2 =
          [] ++ [rc] ∧
        content rc = directory_torn ∧ close_calls rc = 0%nat.
Proof.
  apply (AliveNodesMap_decode_error (cluster (net_up directory_torn [])) start
           0 200 directory_torn None).
  - reflexivity.
  - lia.
  - reflexivity.
  - intros i Hi. lia.
  - reflexivity.
Defined.

(** X7: when the control plane answers none of the five attempts,
    [AliveNodesMap] returns the nil map and the error of the fifth
    attempt, after five GETs of the directory URL and 26 seconds of
    sleep; no body is opened. *)
Theorem AliveNodesMap_unreachable (X : Externals) (w : World) :
  AliveNodesMap_request X tt = Ok (directory_request X) →
  (∀ i, (i < 5)%nat →
        ∃ e, transport X (length (sent w) + i) (directory_request X) = Err e) →
  ∃ e5,
    transport X (length (sent w) + 4) (directory_request X) = Err e5 ∧
    AliveNodesMap X w =
    ((None, Some e5),
     {| sent := sent w ++ replicate 5 (directory_request X);
        slept := slept w ++ [0; 1000000000; 3000000000; 7000000000; 15000000000];
        bodies := bodies w |}) ∧
    total_sleep [0; 1000000000; 3000000000; 7000000000; 15000000000] =
      26 * time_Second.
Proof.
  intros Hreq Hall.
  destruct (ExpBackoffRequest_all_fail X _ _ w Hreq Hall) as (e5 & Htr & Hrun).
  exists e5. split; [done|]. split; [|reflexivity].
  by rewrite AliveNodesMap_unfold, Hrun.
Qed.

Lemma AliveNodesMap_unreachable_witness :
  ∃ e5,
    net_down 4%nat (directory_request (cluster net_down)) = Err e5 ∧
    AliveNodesMap (cluster net_down) start =
    ((None, Some e5),
     {| sent := [] ++ replicate 5 (directory_request (cluster net_down));
        slept := [] ++ [0; 1000000000; 3000000000; 7000000000; 15000000000];
        bodies := [] |}) ∧
    total_sleep [0; 1000000000; 3000000000; 7000000000; 15000000000] =
      26 * time_Second.
Proof.
  apply (AliveNodesMap_unreachable (cluster net_down) start).
  - reflexivity.
  - intros i Hi. exists (refused (0 + i)). reflexivity.
Defined.

(** X8: when [http.NewRequest] rejects the directory URL made from the
    configuration, [AliveNodesMap] returns the nil map and that error
    without any network traffic: the world is unchanged. *)
Theorem AliveNodesMap_bad_configuration (X : Externals) (w : World) (e : error) :
  NewRequest_error X "GET"
    (viper_GetString X "CFLUX_ENDPOINT" +:+ "/nodes/" +:+
     url_QueryEscape X (viper_GetString X "CLUSTER")) = Some e →
  AliveNodesMap X w = ((None, Some e), w).
Proof.
  intros Hnew. rewrite AliveNodesMap_unfold.
  assert (Hf : AliveNodesMap_request X tt = Err e).
  { unfold AliveNodesMap_request, http_NewRequest. by rewrite Hnew. }
  pose proof (ExpBackoffRequest_run X (AliveNodesMap_request X) w) as Hrun.
  destruct (ExpBackoffRequest X (AliveNodesMap_request X) w) as [r w1].
  cbn in Hrun. inversion Hrun; subst; congruence.
Qed.

Lemma AliveNodesMap_bad_configuration_witness :
  AliveNodesMap (cluster_with (fun _ => true) false net_down) start =
  ((None, Some bad_url), start).
Proof.
  apply (AliveNodesMap_bad_configuration (cluster_with (fun _ => true) false net_down)
           start bad_url).
  reflexivity.
Defined.

(** X9: when the identifiers of the answered array are pairwise
    distinct, the directory [AliveNodesMap] returns has one entry per
    record, and looking up the identifier of any record of the array
    gives back that record. *)
Theorem AliveNodesMap_distinct_identifiers (X : Externals) (w : World)
    (j : nat) status data rerr (nodeList : list NodesList) :
  AliveNodesMap_request X tt = Ok (directory_request X) →
  (j < 5)%nat →
  transport X (length (sent w) + j) (directory_request X) = Ok (status, data, rerr) →
  (∀ i, (i < j)%nat →
        ∃ e, transport X (length (sent w) + i) (directory_request X) = Err e) →
  json_Decode X data rerr = Ok nodeList →
  NoDup (ID <$> nodeList) →
  ∃ m w',
    AliveNodesMap X w = ((Some m, None), w') ∧
    size m = length nodeList ∧
    (∀ node, node ∈ nodeList → m !! ID node = Some node).
Proof.
  intros Hreq Hj Hok Hbefore Hdec Hnodup.
  eexists _, _. split; [|split].
  - by apply (AliveNodesMap_success X w j status data rerr nodeList).
  - rewrite <- size_dom, fill_nodeMap_dom, size_list_to_set by done.
    by rewrite length_fmap.
  - intros node Hin.
    destruct (list_elem_of_split _ _ Hin) as (l1 & l2 & ->).
    apply fill_nodeMap_last. intros n Hn Heq.
    rewrite fmap_app, fmap_cons in Hnodup.
    apply NoDup_app in Hnodup as (_ & _ & Hnd).
    apply NoDup_cons in Hnd as [Hnotin _].
    apply Hnotin, list_elem_of_fmap. by exists n.
Qed.

Lemma AliveNodesMap_distinct_identifiers_witness :
  ∃ m w',
    AliveNodesMap (cluster (net_up directory_bytes [])) start = ((Some m, None), w') ∧
    size m = length [toy_node x01 x01 x01; toy_node x02 x02 x00] ∧
    (∀ node, node ∈ [toy_node x01 x01 x01; toy_node x02 x02 x00] →
             m !! ID node = Some node).
Proof.
  apply (AliveNodesMap_distinct_identifiers
           (cluster (net_up directory_bytes [])) start 0 200 directory_bytes None
           [toy_node x01 x01 x01; toy_node x02 x02 x00]).
  - reflexivity.
  - lia.
  - reflexivity.
  - intros i Hi. lia.
  - reflexivity.
  - vm_compute. repeat constructor; intros H; inversion H; subst;
      match goal with
      | H' : _ ∈ [] |- _ => inversion H'
      | H' : _ ∈ _ :: _ |- _ => inversion H'
      | _ => idtac
      end.
Defined.

End DirectoryCoverage.

(** ** Further properties of the three operations *)

Section CallsCoverage.

Context (X : Externals).

(** The requests of the directory lookup. *)
Lemma AliveNodesMap_sent (w : World) req :
  AliveNodesMap_request X tt = Ok req →
  ∃ k : nat, (1 ≤ k ≤ 5)%nat ∧
    sent (AliveNodesMap X w).2 = sent w ++ replicate k req.
Proof.
  intros Hf. rewrite AliveNodesMap_unfold.
  pose proof (ExpBackoffRequest_run X (AliveNodesMap_request X) w) as Hrun.
  destruct (ExpBackoffRequest X (AliveNodesMap_request X) w) as [r w1].
  cbn in Hrun.
  inversion Hrun as [e He|req' j status data rerr Hreq Hj Hok Hbefore
                    |req' e Hreq Hall Htr]; subst; try congruence.
  - rewrite Hf in Hreq. injection Hreq as <-.
    cbn [Body]. rewrite json_NewDecoder_Decode_fresh.
    exists (S j). split; [lia|]. by destruct (json_Decode X data rerr).
  - rewrite Hf in Hreq. injection Hreq as <-. exists 5%nat. split; [lia|done].
Qed.

(** What follows the directory lookup only adds requests. *)
Lemma CreateIterator_rest_sent ric data aliveNodes (w1 : World) :
  sent w1 `prefix_of` sent (CreateIterator_rest X ric data aliveNodes w1).2.
Proof.
  unfold CreateIterator_rest.
  pose proof (ExpBackoffRequest_run X (rpc_request X aliveNodes ric "/read" data) w1)
    as Hrun.
  destruct (ExpBackoffRequest X _ w1) as [r w2]. cbn in Hrun.
  inversion Hrun as [e He|req j status body rerr Hreq Hj Hok Hbefore
                    |req e Hreq Hall Htr]; subst.
  - done.
  - cbn [Body]. rewrite ReadAll_fresh.
    destruct rerr as [e|];
      [|destruct (Unmarshal_ReadShardCommandResponse X body)];
      cbn [snd sent]; by apply prefix_app_r.
  - cbn [snd sent]. by apply prefix_app_r.
Qed.

Lemma reply_rest_sent {A} (reply : result (list byte) → A * option error)
    (nil : A) ric path data aliveNodes (w1 : World) :
  sent w1 `prefix_of` sent (reply_rest X reply nil ric path data aliveNodes w1).2.
Proof.
  unfold reply_rest.
  pose proof (ExpBackoffRequest_run X (rpc_request X aliveNodes ric path data) w1)
    as Hrun.
  destruct (ExpBackoffRequest X _ w1) as [r w2]. cbn in Hrun.
  inversion Hrun as [e He|req j status body rerr Hreq Hj Hok Hbefore
                    |req e Hreq Hall Htr]; subst.
  - done.
  - cbn [Body]. rewrite ReadAll_fresh. cbn [snd sent Body_Close set_bodies].
    by apply prefix_app_r.
  - cbn [snd sent]. by apply prefix_app_r.
Qed.

(** The request of a call goes to the bind address found for the node. *)
Lemma call_sends_to_node ric (c : call X) (w : World) aliveNodes w1 data :
  AliveNodesMap X w = ((aliveNodes, None), w1) →
  call_payload X ric c = Ok data →
  NewRequest_error X "POST"
    ("http://" +:+ BindAddress (map_index aliveNodes (NodeID ric)) +:+
     call_path X c) = None →
  ∃ k : nat, (1 ≤ k ≤ 5)%nat ∧
    sent (call_outcome X ric c w).2 =
    sent w1 ++ replicate k
      (post_to (BindAddress (map_index aliveNodes (NodeID ric)))
               (call_path X c) data).
Proof.
  intros Hdir Hpay Hnew.
  pose proof (rpc_request_ok X aliveNodes ric (call_path X c) data Hnew) as Hf.
  destruct (ExpBackoffRequest_sent X _ _ w1 Hf) as (k & Hk & Hsent & _).
  exists k. split; [done|]. rewrite <- Hsent. clear Hsent Hf Hk.
  destruct c as [opt|sources|sources]; unfold call_outcome.
  - rewrite (CreateIterator_unfold X ric opt data w Hpay), Hdir.
    unfold CreateIterator_rest. cbn [fst snd call_path].
    destruct (ExpBackoffRequest X _ w1) as [[[resp|] [e|]] w2]; try done.
    pose proof (ReadAll_frame (Body resp) w2) as (Hs & _).
    destruct (ioutil_ReadAll (Body resp) w2) as [[respBody|e] w3]; [|done].
    by destruct (Unmarshal_ReadShardCommandResponse X respBody).
  - rewrite (FieldDimensions_unfold X ric sources data w Hpay), Hdir.
    unfold reply_rest. cbn [call_path].
    destruct (ExpBackoffRequest X _ w1) as [[[resp|] [e|]] w2]; try done.
    pose proof (ReadAll_frame (Body resp) w2) as (Hs & _).
    by destruct (ioutil_ReadAll (Body resp) w2) as [rb w3].
  - rewrite (ExpandSources_unfold X ric sources data w Hpay), Hdir.
    unfold reply_rest. cbn [call_path].
    destruct (ExpBackoffRequest X _ w1) as [[[resp|] [e|]] w2]; try done.
    pose proof (ReadAll_frame (Body resp) w2) as (Hs & _).
    by destruct (ioutil_ReadAll (Body resp) w2) as [rb w3].
Qed.

End CallsCoverage.

Section OperationsCoverage.
Import Scenario Faults.

(** X10: when [AliveNodesMap] returns an error, [FieldDimensions] and
    [ExpandSources] return that very error and stop: no request is sent
    to a node, the world is the one the directory lookup left. *)
Theorem metadata_call_returns_directory_error (X : Externals)
    (ric : RemoteIteratorCreator) (c : call X) (w : World)
    data aliveNodes e w1 :
  reads_whole_reply X c = true →
  call_payload X ric c = Ok data →
  AliveNodesMap X w = ((aliveNodes, Some e), w1) →
  call_outcome X ric c w = (Some e, w1).
Proof.
  intros Hkind Hpay Hdir.
  destruct c as [opt|sources|sources]; [done| |]; unfold call_outcome.
  - by rewrite (FieldDimensions_unfold X ric sources data w Hpay), Hdir.
  - by rewrite (ExpandSources_unfold X ric sources data w Hpay), Hdir.
Qed.

Lemma metadata_call_returns_directory_error_witness :
  call_outcome (cluster net_down) ric
    (Call_ExpandSources (cluster net_down) [x61]) start =
  (Some (refused 4),
   {| sent := replicate 5 (directory_request (cluster net_down));
      slept := [0; 1000000000; 3000000000; 7000000000; 15000000000];
      bodies := [] |}).
Proof.
  apply (metadata_call_returns_directory_error (cluster net_down) ric
           (Call_ExpandSources (cluster net_down) [x61]) start [x07; x61] None).
  - reflexivity.
  - reflexivity.
  - vm_compute. reflexivity.
Defined.

(** X11: when the command of a call does not marshal, the call returns
    the marshalling error.  [FieldDimensions] and [ExpandSources] marshal
    first and leave the world untouched; [CreateIterator] has already
    resolved the directory, so the lookup and its requests have taken
    place. *)
Theorem call_marshal_error (X : Externals)
    (ric : RemoteIteratorCreator) (c : call X) (w : World) e :
  call_payload X ric c = Err e →
  call_outcome X ric c w =
  (Some e, if reads_whole_reply X c then w else (AliveNodesMap X w).2).
Proof.
  intros Hpay. destruct c as [opt|sources|sources];
    unfold call_outcome, call_payload in *; cbn [reads_whole_reply].
  - unfold CreateIterator, bind.
    destruct (AliveNodesMap X w) as [a w1]. cbn [snd].
    destruct (IteratorOptions_MarshalBinary X opt) as [optBinary|e'].
    + by rewrite Hpay.
    + by injection Hpay as ->.
  - unfold FieldDimensions.
    destruct (Sources_MarshalBinary X sources) as [sourceBinary|e'].
    + by rewrite Hpay.
    + by injection Hpay as ->.
  - unfold ExpandSources.
    destruct (Sources_MarshalBinary X sources) as [sourceBinary|e'].
    + by rewrite Hpay.
    + by injection Hpay as ->.
Qed.

Lemma call_marshal_error_witness :
  call_outcome (cluster_with (fun _ => false) true (net_up directory_bytes [])) ric
    (Call_CreateIterator (cluster_with (fun _ => false) true (net_up directory_bytes [])) [])
    start =
  (Some bad_sources,
   if reads_whole_reply (cluster_with (fun _ => false) true (net_up directory_bytes []))
        (Call_CreateIterator (cluster_with (fun _ => false) true (net_up directory_bytes [])) [])
   then start
   else (AliveNodesMap (cluster_with (fun _ => false) true (net_up directory_bytes []))
           start).2).
Proof.
  apply (call_marshal_error (cluster_with (fun _ => false) true (net_up directory_bytes []))
           ric
           (Call_CreateIterator (cluster_with (fun _ => false) true (net_up directory_bytes [])) [])
           start bad_sources).
  reflexivity.
Defined.

(** X12: when the target node is in the resolved directory, the command
    of the call marshals and [http.NewRequest] accepts the URL, each of
    the three operations posts to [http://] + the bind address of the
    node + the path of the operation, between one and five times,
    whatever the liveness flag of the node: a node marked not alive is
    called all the same. *)
Theorem call_goes_to_bind_address (X : Externals)
    (ric : RemoteIteratorCreator) (c : call X) (w : World)
    dir node w1 data :
  AliveNodesMap X w = ((Some dir, None), w1) →
  dir !! NodeID ric = Some node →
  call_payload X ric c = Ok data →
  NewRequest_error X "POST"
    ("http://" +:+ BindAddress node +:+ call_path X c) = None →
  ∃ k : nat, (1 ≤ k ≤ 5)%nat ∧
    sent (call_outcome X ric c w).2 =
    sent w1 ++ replicate k
      {| Method := "POST";
         URL := "http://" +:+ BindAddress node +:+ call_path X c;
         Payload := Some data |}.
Proof.
  intros Hdir Hnode Hpay Hnew.
  assert (Hidx : map_index (Some dir) (NodeID ric) = node).
  { cbn. by rewrite Hnode. }
  destruct (call_sends_to_node X ric c w (Some dir) w1 data Hdir Hpay)
    as (k & Hk & Hsent).
  - by rewrite Hidx.
  - exists k. split; [done|]. by rewrite Hsent, Hidx.
Qed.

Lemma call_goes_to_bind_address_witness :
  ∃ k : nat, (1 ≤ k ≤ 5)%nat ∧
    sent (call_outcome (cluster (net_up directory_dead [x00])) ric
            (Call_FieldDimensions (cluster (net_up directory_dead [x00])) [x61])
            start).2 =
    [directory_request (cluster net_down)] ++
    replicate k
      {| Method := "POST"; URL := "http://10.0.0.9:9000/fielddimensions";
         Payload := Some [x07; x61] |}.
Proof.
  apply (call_goes_to_bind_address (cluster (net_up directory_dead [x00])) ric
           (Call_FieldDimensions (cluster (net_up directory_dead [x00])) [x61])
           start
           (fill_nodeMap [toy_node x02 x09 x00])
           (toy_node x02 x09 x00)
           {| sent := [directory_request (cluster net_down)]; slept := [];
              bodies := [drained_body (fresh_body directory_dead None)] |}
           [x07; x61]).
  - vm_compute. reflexivity.
  - vm_compute. reflexivity.
  - reflexivity.
  - reflexivity.
Defined.

(** X13: no operation keeps the directory: when [http.NewRequest]
    accepts the directory URL, every call whose command marshals starts
    with a GET of the directory URL, sent before any request to a node,
    so two calls in a row resolve the directory twice. *)
Theorem call_resolves_directory_first (X : Externals)
    (ric : RemoteIteratorCreator) (c : call X) (w : World) data :
  AliveNodesMap_request X tt = Ok (directory_request X) →
  call_payload X ric c = Ok data →
  ∃ rest,
    sent (call_outcome X ric c w).2 = sent w ++ directory_request X :: rest.
Proof.
  intros Hreq Hpay.
  destruct (AliveNodesMap_sent X w _ Hreq) as (k & Hk & Hsent).
  assert (Hpre : sent (AliveNodesMap X w).2 `prefix_of`
                 sent (call_outcome X ric c w).2).
  { destruct c as [opt|sources|sources]; unfold call_outcome.
    - rewrite (CreateIterator_unfold X ric opt data w Hpay).
      destruct (CreateIterator_rest_sent X ric data (AliveNodesMap X w).1.1
                  (AliveNodesMap X w).2) as [l Hl].
      destruct (CreateIterator_rest X ric data _ _) as [r w']. by exists l.
    - rewrite (FieldDimensions_unfold X ric sources data w Hpay).
      destruct (AliveNodesMap X w) as [[aliveNodes [e|]] w1]; [done|].
      destruct (reply_rest_sent X (FieldDimensions_reply X) nil_maps ric
                  "/fielddimensions" data aliveNodes w1) as [l Hl].
      destruct (reply_rest X _ _ _ _ _ _ _) as [r w']. by exists l.
    - rewrite (ExpandSources_unfold X ric sources data w Hpay).
      destruct (AliveNodesMap X w) as [[aliveNodes [e|]] w1]; [done|].
      destruct (reply_rest_sent X (ExpandSources_reply X) [] ric
                  "/expandsources" data aliveNodes w1) as [l Hl].
      destruct (reply_rest X _ _ _ _ _ _ _) as [r w']. by exists l. }
  destruct Hpre as [l Hl]. rewrite Hl, Hsent.
  destruct k as [|k]; [lia|]. cbn [replicate].
  exists (replicate k (directory_request X) ++ l).
  by rewrite <- app_assoc.
Qed.

Lemma call_resolves_directory_first_witness :
  ∃ rest,
    sent (call_outcome (cluster (net_up directory_bytes [x00])) ric
            (Call_ExpandSources (cluster (net_up directory_bytes [x00])) [x61])
            (call_outcome (cluster (net_up directory_bytes [x00])) ric
               (Call_ExpandSources (cluster (net_up directory_bytes [x00])) [x61])
               start).2).2 =
    sent (call_outcome (cluster (net_up directory_bytes [x00])) ric
            (Call_ExpandSources (cluster (net_up directory_bytes [x00])) [x61])
            start).2 ++
    directory_request (cluster (net_up directory_bytes [x00])) :: rest.
Proof.
  apply (call_resolves_directory_first (cluster (net_up directory_bytes [x00])) ric
           (Call_ExpandSources (cluster (net_up directory_bytes [x00])) [x61])
           (call_outcome (cluster (net_up directory_bytes [x00])) ric
              (Call_ExpandSources (cluster (net_up directory_bytes [x00])) [x61])
              start).2
           [x07; x61]).
  - reflexivity.
  - reflexivity.
Defined.

(** The copy of the wire map has its entries. *)
Lemma copy_fields_lookup (wire : gmap string Z) (key : string) :
  copy_fields wire !! key = DataType <$> wire !! key.
Proof.
  unfold copy_fields.
  apply (map_fold_weak_ind
           (fun (fields : gmap string Z) (m : gmap string Z) =>
              fields !! key = DataType <$> m !! key)).
  - by rewrite !lookup_empty.
  - intros i x m r _ IH. destruct (decide (i = key)) as [->|Hne].
    + by rewrite !lookup_insert_eq.
    + by rewrite !lookup_insert_ne.
Qed.

Lemma fold_dimensions_elem (ds : list string) (acc : gset string) (d : string) :
  d ∈ fold_left (fun dimensions dimension => {[dimension]} ∪ dimensions) ds acc ↔
  d ∈ ds ∨ d ∈ acc.
Proof.
  revert acc. induction ds as [|x ds IH]; intros acc; cbn [fold_left].
  - split; [by right|]. intros [H|H]; [inversion H|done].
  - rewrite IH, elem_of_union, elem_of_singleton, elem_of_cons. tauto.
Qed.

(** X14: when the decoded reply of [FieldDimensions] has an empty error
    string, the operation returns a nil error and two maps that are not
    nil: the fields map has the entries of the reply's map, the
    dimensions set has exactly the names of the reply's list, a repeated
    name counting once. *)
Theorem FieldDimensions_success (X : Externals)
    (ric : RemoteIteratorCreator) (sources : list (Source X)) (w : World)
    data aliveNodes w1 resp w2 respBody w3 respMessage :
  call_payload X ric (Call_FieldDimensions X sources) = Ok data →
  AliveNodesMap X w = ((aliveNodes, None), w1) →
  ExpBackoffRequest X (rpc_request X aliveNodes ric "/fielddimensions" data) w1 =
    ((Some resp, None), w2) →
  ioutil_ReadAll (Body resp) w2 = (Ok respBody, w3) →
  Unmarshal_FieldDimensionsCommandResponse X respBody = Ok respMessage →
  fdcr_Error respMessage = "" →
  ∃ fields dimensions,
    (FieldDimensions X ric sources w).1 = (Some fields, Some dimensions, None) ∧
    (∀ key, fields !! key = fdcr_Fields respMessage !! key) ∧
    (∀ d, d ∈ dimensions ↔ d ∈ fdcr_Dimensions respMessage).
Proof.
  intros Hpay Hdir Hrun Hread Hdec Hnone.
  rewrite (FieldDimensions_unfold X ric sources data w Hpay), Hdir.
  unfold reply_rest. rewrite Hrun, Hread. cbn [fst].
  unfold FieldDimensions_reply. rewrite Hdec, Hnone. cbn [String.eqb].
  eexists _, _. split; [reflexivity|]. split.
  - intros key. rewrite copy_fields_lookup.
    unfold DataType. by destruct (fdcr_Fields respMessage !! key).
  - intros d. unfold collect_dimensions. rewrite fold_dimensions_elem.
    split; [intros [H|H]; [done|by apply not_elem_of_empty in H]|by left].
Qed.

Lemma FieldDimensions_success_witness :
  ∃ fields dimensions,
    (FieldDimensions (cluster (net_up directory_bytes [x00; x61; x62; x61]))
       ric [x61] start).1 = (Some fields, Some dimensions, None) ∧
    (∀ key, fields !! key =
            fdcr_Fields {| fdcr_Fields := {[ "value" := 1 ]};
                           fdcr_Dimensions := ["a"; "b"; "a"];
                           fdcr_Error := "" |} !! key) ∧
    (∀ d, d ∈ dimensions ↔
          d ∈ fdcr_Dimensions {| fdcr_Fields := {[ "value" := 1 ]};
                                 fdcr_Dimensions := ["a"; "b"; "a"];
                                 fdcr_Error := "" |}).
Proof.
  apply (FieldDimensions_success
           (cluster (net_up directory_bytes [x00; x61; x62; x61]))
           ric [x61] start [x07; x61]
           (Some (fill_nodeMap [toy_node x01 x01 x01; toy_node x02 x02 x00]))
           {| sent := [directory_request (cluster net_down)]; slept := [];
              bodies := [drained_body (fresh_body directory_bytes None)] |}
           {| StatusCode := 200; Body := 1 |}
           {| sent := [directory_request (cluster net_down);
                       post_to "10.0.0.2:9000" "/fielddimensions" [x07; x61]];
              slept := [];
              bodies := [drained_body (fresh_body directory_bytes None);
                         fresh_body [x00; x61; x62; x61] None] |}
           [x00; x61; x62; x61]
           {| sent := [directory_request (cluster net_down);
                       post_to "10.0.0.2:9000" "/fielddimensions" [x07; x61]];
              slept := [];
              bodies := [drained_body (fresh_body directory_bytes None);
                         drained_body (fresh_body [x00; x61; x62; x61] None)] |}
           {| fdcr_Fields := {[ "value" := 1 ]};
              fdcr_Dimensions := ["a"; "b"; "a"];
              fdcr_Error := "" |}).
  - reflexivity.
  - vm_compute. reflexivity.
  - vm_compute. reflexivity.
  - vm_compute. reflexivity.
  - reflexivity.
  - reflexivity.
Defined.

(** X15: when the decoded reply of [ExpandSources] carries a non-empty
    error string, the operation returns the nil source list and
    [errors.New] of exactly that string; the sources of the reply are
    not looked at. *)
Theorem ExpandSources_remote_error (X : Externals)
    (ric : RemoteIteratorCreator) (sources : list (Source X)) (w : World)
    data aliveNodes w1 resp w2 respBody w3 respMessage :
  call_payload X ric (Call_ExpandSources X sources) = Ok data →
  AliveNodesMap X w = ((aliveNodes, None), w1) →
  ExpBackoffRequest X (rpc_request X aliveNodes ric "/expandsources" data) w1 =
    ((Some resp, None), w2) →
  ioutil_ReadAll (Body resp) w2 = (Ok respBody, w3) →
  Unmarshal_ExpandSourcesCommandResponse X respBody = Ok respMessage →
  escr_Error respMessage ≠ "" →
  (ExpandSources X ric sources w).1 =
    ([], Some (errors_New (escr_Error respMessage))) ∧
  Error (errors_New (escr_Error respMessage)) = escr_Error respMessage.
Proof.
  intros Hpay Hdir Hrun Hread Hdec Hne. split; [|done].
  rewrite (ExpandSources_unfold X ric sources data w Hpay), Hdir.
  unfold reply_rest. rewrite Hrun, Hread. cbn [fst].
  unfold ExpandSources_reply. rewrite Hdec.
  by destruct (String.eqb_spec (escr_Error respMessage) "").
Qed.

Lemma ExpandSources_remote_error_witness :
  (ExpandSources
     (cluster (net_up directory_bytes (x01 :: list_byte_of_string "no such shard")))
     ric [x61] start).1 =
    ([], Some (errors_New "no such shard")) ∧
  Error (errors_New "no such shard") = "no such shard".
Proof.
  apply (ExpandSources_remote_error
           (cluster (net_up directory_bytes
                       (x01 :: list_byte_of_string "no such shard")))
           ric [x61] start [x07; x61]
           (Some (fill_nodeMap [toy_node x01 x01 x01; toy_node x02 x02 x00]))
           {| sent := [directory_request (cluster net_down)]; slept := [];
              bodies := [drained_body (fresh_body directory_bytes None)] |}
           {| StatusCode := 200; Body := 1 |}
           {| sent := [directory_request (cluster net_down);
                       post_to "10.0.0.2:9000" "/expandsources" [x07; x61]];
              slept := [];
              bodies := [drained_body (fresh_body directory_bytes None);
                         fresh_body (x01 :: list_byte_of_string "no such shard")
                                    None] |}
           (x01 :: list_byte_of_string "no such shard")
           {| sent := [directory_request (cluster net_down);
                       post_to "10.0.0.2:9000" "/expandsources" [x07; x61]];
              slept := [];
              bodies := [drained_body (fresh_body directory_bytes None);
                         drained_body
                           (fresh_body (x01 :: list_byte_of_string "no such shard")
                                       None)] |}
           {| escr_Sources := []; escr_Error := "no such shard" |}).
  - reflexivity.
  - vm_compute. reflexivity.
  - vm_compute. reflexivity.
  - vm_compute. reflexivity.
  - vm_compute. reflexivity.
  - discriminate.
Defined.

(** X16: when the decoded reply of [ExpandSources] has an empty error
    string, the operation returns what [UnmarshalBinary] makes of the
    reply's sources: the source list and a nil error when it succeeds,
    the nil list and its error when it fails. *)
Theorem ExpandSources_success (X : Externals)
    (ric : RemoteIteratorCreator) (sources : list (Source X)) (w : World)
    data aliveNodes w1 resp w2 respBody w3 respMessage :
  call_payload X ric (Call_ExpandSources X sources) = Ok data →
  AliveNodesMap X w = ((aliveNodes, None), w1) →
  ExpBackoffRequest X (rpc_request X aliveNodes ric "/expandsources" data) w1 =
    ((Some resp, None), w2) →
  ioutil_ReadAll (Body resp) w2 = (Ok respBody, w3) →
  Unmarshal_ExpandSourcesCommandResponse X respBody = Ok respMessage →
  escr_Error respMessage = "" →
  (ExpandSources X ric sources w).1 =
    match Sources_UnmarshalBinary X (escr_Sources respMessage) with
    | Ok respSources => (respSources, None)
    | Err e => ([], Some e)
    end.
Proof.
  intros Hpay Hdir Hrun Hread Hdec Hnone.
  rewrite (ExpandSources_unfold X ric sources data w Hpay), Hdir.
  unfold reply_rest. rewrite Hrun, Hread. cbn [fst].
  unfold ExpandSources_reply. by rewrite Hdec, Hnone.
Qed.

Lemma ExpandSources_success_witness :
  (ExpandSources (cluster_with (fun _ => false) false (net_up directory_bytes [x00; x61; x62]))
     ric [x2a] start).1 =
    match Sources_UnmarshalBinary
            (cluster_with (fun _ => false) false (net_up directory_bytes [x00; x61; x62]))
            [x61; x62] with
    | Ok respSources => (respSources, None)
    | Err e => ([], Some e)
    end.
Proof.
  apply (ExpandSources_success
           (cluster_with (fun _ => false) false (net_up directory_bytes [x00; x61; x62]))
           ric [x2a] start [x07; x2a]
           (Some (fill_nodeMap [toy_node x01 x01 x01; toy_node x02 x02 x00]))
           {| sent := [directory_request (cluster net_down)]; slept := [];
              bodies := [drained_body (fresh_body directory_bytes None)] |}
           {| StatusCode := 200; Body := 1 |}
           {| sent := [directory_request (cluster net_down);
                       post_to "10.0.0.2:9000" "/expandsources" [x07; x2a]];
              slept := [];
              bodies := [drained_body (fresh_body directory_bytes None);
                         fresh_body [x00; x61; x62] None] |}
           [x00; x61; x62]
           {| sent := [directory_request (cluster net_down);
                       post_to "10.0.0.2:9000" "/expandsources" [x07; x2a]];
              slept := [];
              bodies := [drained_body (fresh_body directory_bytes None);
                         drained_body (fresh_body [x00; x61; x62] None)] |}
           {| escr_Sources := [x61; x62]; escr_Error := "" |}).
  - reflexivity.
  - vm_compute. reflexivity.
  - vm_compute. reflexivity.
  - vm_compute. reflexivity.
  - reflexivity.
  - reflexivity.
Defined.

Lemma select_iterator_inv (X : Externals) iterType dec closeBody it :
  select_iterator X iterType dec closeBody = (Some it, None) →
  closed_flag it = false ∧ decoder_of it = dec ∧ closer_of it = closeBody ∧
  variant_tag X it = iterType.
Proof.
  unfold select_iterator.
  destruct (Z.eqb_spec iterType (ReadShardCommandResponse_FLOAT X));
    [by intros [= <-]|].
  destruct (Z.eqb_spec iterType (ReadShardCommandResponse_INTEGER X));
    [by intros [= <-]|].
  destruct (Z.eqb_spec iterType (ReadShardCommandResponse_STRING X));
    [by intros [= <-]|].
  destruct (Z.eqb_spec iterType (ReadShardCommandResponse_BOOLEAN X));
    [by intros [= <-]|].
  done.
Qed.

(** X17: an iterator returned by [CreateIterator] is not closed, its
    close callback closes the very body its point decoder reads, that
    body is the last one opened and is still open (close count 0), and
    the variant of the iterator is the one of the kind that the envelope
    decoded from the body declares. *)
Theorem CreateIterator_iterator_owns_open_body (X : Externals)
    (ric : RemoteIteratorCreator) (opt : IteratorOptions X) (w : World) it w' :
  CreateIterator X ric opt w = ((Some it, None), w') →
  closed_flag it = false ∧
  closer_of it = decoder_of it ∧
  S (closer_of it) = length (bodies w') ∧
  ∃ rc respMessage,
    bodies w' !! closer_of it = Some rc ∧
    close_calls rc = 0%nat ∧
    Unmarshal_ReadShardCommandResponse X (content rc) = Ok respMessage ∧
    rscr_Type respMessage = variant_tag X it.
Proof.
  destruct (call_payload X ric (Call_CreateIterator X opt)) as [data|e] eqn:Hpay.
  - rewrite (CreateIterator_unfold X ric opt data w Hpay).
    destruct (AliveNodesMap X w) as [a w1]. cbn [fst snd].
    unfold CreateIterator_rest.
    pose proof (ExpBackoffRequest_run X (rpc_request X a.1 ric "/read" data) w1) as Hr.
    destruct (ExpBackoffRequest X _ w1) as [r w2]. cbn in Hr.
    inversion Hr as [e He|req j status body rerr Hreq Hj Hok Hbefore
                    |req e Hreq Hall Htr]; subst; try done.
    cbn [Body]. rewrite ReadAll_fresh.
    destruct rerr as [e|]; [done|].
    destruct (Unmarshal_ReadShardCommandResponse X body) as [respMessage|e] eqn:Hdec;
      [|done].
    intros [= Hsel <-].
    destruct (select_iterator_inv X _ _ _ _ Hsel) as (Hclosed & Hdecoder & Hcloser & Htag).
    rewrite Hcloser, Hdecoder. cbn [bodies].
    split; [done|]. split; [done|].
    split; [rewrite length_app; cbn; lia|].
    exists (drained_body (fresh_body body None)), respMessage.
    by rewrite list_lookup_middle.
  - unfold call_payload in Hpay. unfold CreateIterator, bind.
    destruct (AliveNodesMap X w) as [a w1]. cbn [fst snd].
    destruct (IteratorOptions_MarshalBinary X opt) as [optBinary|]; [|done].
    by rewrite Hpay.
Qed.

Lemma CreateIterator_iterator_owns_open_body_witness :
  closed_flag (RemoteStringIterator
                 {| PointDecoder := 1; Closed := false; CloseReader := 1 |}) = false ∧
  closer_of (RemoteStringIterator
               {| PointDecoder := 1; Closed := false; CloseReader := 1 |}) =
  decoder_of (RemoteStringIterator
                {| PointDecoder := 1; Closed := false; CloseReader := 1 |}) ∧
  S (closer_of (RemoteStringIterator
                  {| PointDecoder := 1; Closed := false; CloseReader := 1 |})) =
  length [drained_body (fresh_body directory_bytes None);
          drained_body (fresh_body [x02; x61] None)] ∧
  ∃ rc respMessage,
    [drained_body (fresh_body directory_bytes None);
     drained_body (fresh_body [x02; x61] None)] !!
      closer_of (RemoteStringIterator
                   {| PointDecoder := 1; Closed := false; CloseReader := 1 |}) =
      Some rc ∧
    close_calls rc = 0%nat ∧
    toy_read_response (content rc) = Ok respMessage ∧
    rscr_Type respMessage =
      variant_tag (cluster (net_up directory_bytes [x02; x61]))
        (RemoteStringIterator
           {| PointDecoder := 1; Closed := false; CloseReader := 1 |}).
Proof.
  apply (CreateIterator_iterator_owns_open_body
           (cluster (net_up directory_bytes [x02; x61])) ric [] start
           (RemoteStringIterator
              {| PointDecoder := 1; Closed := false; CloseReader := 1 |})
           {| sent := [directory_request (cluster net_down);
                       post_to "10.0.0.2:9000" "/read" [x07]];
              slept := [];
              bodies := [drained_body (fresh_body directory_bytes None);
                         drained_body (fresh_body [x02; x61] None)] |}).
  vm_compute. reflexivity.
Defined.

(** X18: [CreateIterator] closes no body on any path, successful or
    not: after it, every body of the store has the close count it had
    before, and the bodies it opened, at most the directory answer and
    the reply, have a close count of 0. *)
Theorem CreateIterator_closes_no_body (X : Externals)
    (ric : RemoteIteratorCreator) (opt : IteratorOptions X) (w : World) :
  ∃ opened : nat, (opened ≤ 2)%nat ∧
    close_calls <$> bodies (CreateIterator X ric opt w).2 =
    (close_calls <$> bodies w) ++ replicate opened 0%nat.
Proof. exact (CreateIterator_never_closes X ric opt w). Qed.

(** The directory lookup that succeeds adds one body, not closed. *)
Lemma AliveNodesMap_ok_bodies (X : Externals) (w : World) aliveNodes w1 :
  AliveNodesMap X w = ((aliveNodes, None), w1) →
  ∃ rc, bodies w1 = bodies w ++ [rc] ∧ close_calls rc = 0%nat.
Proof.
  rewrite AliveNodesMap_unfold.
  pose proof (ExpBackoffRequest_run X (AliveNodesMap_request X) w) as Hrun.
  destruct (ExpBackoffRequest X (AliveNodesMap_request X) w) as [r w0]. cbn in Hrun.
  inversion Hrun as [e He|req j status data rerr Hreq Hj Hok Hbefore
                    |req e Hreq Hall Htr]; subst; try done.
  cbn [Body]. rewrite json_NewDecoder_Decode_fresh.
  destruct (json_Decode X data rerr) as [nodeList|e]; [|done].
  intros [= _ <-]. by exists (drained_body (fresh_body data rerr)).
Qed.

(** X19: a call of [FieldDimensions] or [ExpandSources] whose round trip
    succeeds adds exactly two bodies to the store: the answer of the
    control plane, which is left open (close count 0), and the reply of
    the node, closed once.  Every such call leaves one more open body
    behind. *)
Theorem metadata_call_leaves_directory_body_open (X : Externals)
    (ric : RemoteIteratorCreator) (c : call X) (w : World)
    data aliveNodes w1 resp w2 :
  reads_whole_reply X c = true →
  call_payload X ric c = Ok data →
  AliveNodesMap X w = ((aliveNodes, None), w1) →
  ExpBackoffRequest X (rpc_request X aliveNodes ric (call_path X c) data) w1 =
    ((Some resp, None), w2) →
  ∃ answer reply,
    bodies (call_outcome X ric c w).2 = bodies w ++ [answer; reply] ∧
    close_calls answer = 0%nat ∧
    close_calls reply = 1%nat.
Proof.
  intros Hkind Hpay Hdir Hrun.
  destruct (AliveNodesMap_ok_bodies X w aliveNodes w1 Hdir) as (answer & Hw1 & Hopen).
  assert (Hrest : ∀ A (reply : result (list byte) → A * option error) (nil : A),
            ∃ rc, bodies (reply_rest X reply nil ric (call_path X c) data
                            aliveNodes w1).2 = bodies w1 ++ [rc] ∧
                  close_calls rc = 1%nat).
  { intros A reply nil.
    destruct (reply_rest_closes_once X reply nil ric (call_path X c) data
                aliveNodes w1 resp w2 Hrun) as (rc0 & rc & _ & _ & _ & Hb & Hc).
    by exists rc. }
  destruct c as [opt|sources|sources]; [done| |]; unfold call_outcome.
  - rewrite (FieldDimensions_unfold X ric sources data w Hpay), Hdir.
    destruct (Hrest _ (FieldDimensions_reply X) nil_maps) as (rc & Hb & Hc).
    cbn [call_path] in Hb.
    destruct (reply_rest X (FieldDimensions_reply X) nil_maps ric
                "/fielddimensions" data aliveNodes w1) as [r w'].
    exists answer, rc. cbn [snd] in *. rewrite Hb, Hw1, <- app_assoc. by cbn.
  - rewrite (ExpandSources_unfold X ric sources data w Hpay), Hdir.
    destruct (Hrest _ (ExpandSources_reply X) []) as (rc & Hb & Hc).
    cbn [call_path] in Hb.
    destruct (reply_rest X (ExpandSources_reply X) [] ric
                "/expandsources" data aliveNodes w1) as [r w'].
    exists answer, rc. cbn [snd] in *. rewrite Hb, Hw1, <- app_assoc. by cbn.
Qed.

Lemma metadata_call_leaves_directory_body_open_witness :
  ∃ answer reply,
    bodies (call_outcome (cluster (net_up directory_bytes [x00])) ric
              (Call_FieldDimensions (cluster (net_up directory_bytes [x00])) [x61])
              start).2 = [] ++ [answer; reply] ∧
    close_calls answer = 0%nat ∧
    close_calls reply = 1%nat.
Proof.
  apply (metadata_call_leaves_directory_body_open
           (cluster (net_up directory_bytes [x00])) ric
           (Call_FieldDimensions (cluster (net_up directory_bytes [x00])) [x61])
           start [x07; x61]
           (Some (fill_nodeMap [toy_node x01 x01 x01; toy_node x02 x02 x00]))
           {| sent := [directory_request (cluster net_down)]; slept := [];
              bodies := [drained_body (fresh_body directory_bytes None)] |}
           {| StatusCode := 200; Body := 1 |}
           {| sent := [directory_request (cluster net_down);
                       post_to "10.0.0.2:9000" "/fielddimensions" [x07; x61]];
              slept := [];
              bodies := [drained_body (fresh_body directory_bytes None);
                         fresh_body [x00] None] |}).
  - reflexivity.
  - reflexivity.
  - vm_compute. reflexivity.
  - vm_compute. reflexivity.
Defined.

(** X20: when the body of the reply breaks while [FieldDimensions] or
    [ExpandSources] reads it, the operation returns the read error, the
    bytes read so far are not decoded, and the world is the one the
    deferred close leaves. *)
Theorem metadata_call_returns_read_error (X : Externals)
    (ric : RemoteIteratorCreator) (c : call X) (w : World)
    data aliveNodes w1 resp w2 e w3 :
  reads_whole_reply X c = true →
  call_payload X ric c = Ok data →
  AliveNodesMap X w = ((aliveNodes, None), w1) →
  ExpBackoffRequest X (rpc_request X aliveNodes ric (call_path X c) data) w1 =
    ((Some resp, None), w2) →
  ioutil_ReadAll (Body resp) w2 = (Err e, w3) →
  call_outcome X ric c w = (Some e, (Body_Close (Body resp) w3).2).
Proof.
  intros Hkind Hpay Hdir Hrun Hread.
  destruct c as [opt|sources|sources]; [done| |]; unfold call_outcome;
    cbn [call_path] in Hrun.
  - rewrite (FieldDimensions_unfold X ric sources data w Hpay), Hdir.
    unfold reply_rest. by rewrite Hrun, Hread.
  - rewrite (ExpandSources_unfold X ric sources data w Hpay), Hdir.
    unfold reply_rest. by rewrite Hrun, Hread.
Qed.

Lemma metadata_call_returns_read_error_witness :
  call_outcome (cluster (net_cut directory_bytes [x00; x61])) ric
    (Call_FieldDimensions (cluster (net_cut directory_bytes [x00; x61])) [x61])
    start =
  (Some cut,
   {| sent := [directory_request (cluster net_down);
               post_to "10.0.0.2:9000" "/fielddimensions" [x07; x61]];
      slept := [];
      bodies := [drained_body (fresh_body directory_bytes None);
                 closed_body (drained_body (fresh_body [x00; x61] (Some cut)))] |}).
Proof.
  apply (metadata_call_returns_read_error
           (cluster (net_cut directory_bytes [x00; x61])) ric
           (Call_FieldDimensions (cluster (net_cut directory_bytes [x00; x61])) [x61])
           start [x07; x61]
           (Some (fill_nodeMap [toy_node x01 x01 x01; toy_node x02 x02 x00]))
           {| sent := [directory_request (cluster net_down)]; slept := [];
              bodies := [drained_body (fresh_body directory_bytes None)] |}
           {| StatusCode := 200; Body := 1 |}
           {| sent := [directory_request (cluster net_down);
                       post_to "10.0.0.2:9000" "/fielddimensions" [x07; x61]];
              slept := [];
              bodies := [drained_body (fresh_body directory_bytes None);
                         fresh_body [x00; x61] (Some cut)] |}
           cut
           {| sent := [directory_request (cluster net_down);
                       post_to "10.0.0.2:9000" "/fielddimensions" [x07; x61]];
              slept := [];
              bodies := [drained_body (fresh_body directory_bytes None);
                         drained_body (fresh_body [x00; x61] (Some cut))] |}).
  - reflexivity.
  - reflexivity.
  - vm_compute. reflexivity.
  - vm_compute. reflexivity.
  - vm_compute. reflexivity.
Defined.

(** X21: when the node answers none of the five attempts, each of the
    three operations returns the transport error of the fifth attempt,
    after five identical POSTs and the five sleeps; no reply body is
    opened. *)
Theorem call_node_unreachable (X : Externals)
    (ric : RemoteIteratorCreator) (c : call X) (w : World)
    data aliveNodes w1 req :
  call_payload X ric c = Ok data →
  AliveNodesMap X w = ((aliveNodes, None), w1) →
  rpc_request X aliveNodes ric (call_path X c) data tt = Ok req →
  (∀ i, (i < 5)%nat → ∃ e, transport X (length (sent w1) + i) req = Err e) →
  ∃ e5,
    transport X (length (sent w1) + 4) req = Err e5 ∧
    call_outcome X ric c w =
    (Some e5,
     {| sent := sent w1 ++ replicate 5 req;
        slept := slept w1 ++ [0; 1000000000; 3000000000; 7000000000; 15000000000];
        bodies := bodies w1 |}).
Proof.
  intros Hpay Hdir Hreq Hall.
  destruct (ExpBackoffRequest_all_fail X _ _ w1 Hreq Hall) as (e5 & Htr & Hrun).
  exists e5. split; [done|].
  by apply (call_request_error X ric c w data aliveNodes w1 None e5).
Qed.

Lemma call_node_unreachable_witness :
  ∃ e5,
    net_no_host directory_bytes (1 + 4)
      (post_to "10.0.0.2:9000" "/read" [x07]) = Err e5 ∧
    call_outcome (cluster (net_no_host directory_bytes)) ric
      (Call_CreateIterator (cluster (net_no_host directory_bytes)) []) start =
    (Some e5,
     {| sent := [directory_request (cluster net_down)] ++
                replicate 5 (post_to "10.0.0.2:9000" "/read" [x07]);
        slept := [] ++ [0; 1000000000; 3000000000; 7000000000; 15000000000];
        bodies := [drained_body (fresh_body directory_bytes None)] |}).
Proof.
  apply (call_node_unreachable (cluster (net_no_host directory_bytes)) ric
           (Call_CreateIterator (cluster (net_no_host directory_bytes)) []) start
           [x07]
           (Some (fill_nodeMap [toy_node x01 x01 x01; toy_node x02 x02 x00]))
           {| sent := [directory_request (cluster net_down)]; slept := [];
              bodies := [drained_body (fresh_body directory_bytes None)] |}
           (post_to "10.0.0.2:9000" "/read" [x07])).
  - reflexivity.
  - vm_compute. reflexivity.
  - reflexivity.
  - intros i Hi. exists no_host. reflexivity.
Defined.

(** X22: when [http.NewRequest] rejects the URL made from the bind
    address, each of the three operations returns that error at once:
    the request is not retried, nothing is sent to the node and nothing
    is slept after the directory lookup. *)
Theorem call_bad_address (X : Externals)
    (ric : RemoteIteratorCreator) (c : call X) (w : World)
    data aliveNodes w1 e :
  call_payload X ric c = Ok data →
  AliveNodesMap X w = ((aliveNodes, None), w1) →
  NewRequest_error X "POST"
    ("http://" +:+ BindAddress (map_index aliveNodes (NodeID ric)) +:+
     call_path X c) = Some e →
  call_outcome X ric c w = (Some e, w1).
Proof.
  intros Hpay Hdir Hnew.
  apply (call_request_error X ric c w data aliveNodes w1 None e); [done|done|].
  apply ExpBackoffRequest_builder_error_eq.
  unfold rpc_request, http_NewRequest. by rewrite Hnew.
Qed.

Lemma call_bad_address_witness :
  call_outcome (cluster_with (String.eqb "POST") false (net_up directory_bytes []))
    ric
    (Call_ExpandSources
       (cluster_with (String.eqb "POST") false (net_up directory_bytes [])) [x61])
    start =
  (Some bad_url,
   {| sent := [directory_request (cluster net_down)]; slept := [];
      bodies := [drained_body (fresh_body directory_bytes None)] |}).
Proof.
  apply (call_bad_address
           (cluster_with (String.eqb "POST") false (net_up directory_bytes []))
           ric
           (Call_ExpandSources
              (cluster_with (String.eqb "POST") false (net_up directory_bytes []))
              [x61])
           start [x07; x61]
           (Some (fill_nodeMap [toy_node x01 x01 x01; toy_node x02 x02 x00]))).
  - reflexivity.
  - vm_compute. reflexivity.
  - reflexivity.
Defined.

(** X5: when, after a successful round trip, [CreateIterator] fails to
    read the body of the reply or to decode the envelope from it, it
    returns that error and no iterator, and the body of the response is
    left open: its close count is 0. *)
Theorem CreateIterator_reply_error (X : Externals)
    (ric : RemoteIteratorCreator) (opt : IteratorOptions X) (w : World)
    data resp w2 rb w3 e :
  call_payload X ric (Call_CreateIterator X opt) = Ok data →
  ExpBackoffRequest X
    (rpc_request X (AliveNodesMap X w).1.1 ric "/read" data)
    (AliveNodesMap X w).2 = ((Some resp, None), w2) →
  ioutil_ReadAll (Body resp) w2 = (rb, w3) →
  (rb = Err e ∨
   ∃ respBody, rb = Ok respBody ∧
               Unmarshal_ReadShardCommandResponse X respBody = Err e) →
  CreateIterator X ric opt w = ((None, Some e), w3) ∧
  ∃ rc, bodies w3 !! Body resp = Some rc ∧ close_calls rc = 0%nat.
Proof.
  intros Hpay Hrun Hread Hfail.
  rewrite (CreateIterator_unfold X ric opt data w Hpay).
  unfold CreateIterator_rest. rewrite Hrun.
  pose proof (ExpBackoffRequest_run X
                (rpc_request X (AliveNodesMap X w).1.1 ric "/read" data)
                (AliveNodesMap X w).2) as Hr.
  rewrite Hrun in Hr. cbn [fst snd] in Hr.
  inversion Hr as [|req j status body rerr Hreq Hj Hok Hbefore|]; subst.
  rewrite Hread. split.
  - destruct Hfail as [->|(respBody & -> & Hdec)]; [done|by rewrite Hdec].
  - cbn [Body] in *. rewrite ReadAll_fresh in Hread.
    injection Hread as _ <-. cbn [bodies].
    exists (drained_body (fresh_body body rerr)).
    by rewrite list_lookup_middle.
Qed.

Lemma CreateIterator_reply_error_witness :
  CreateIterator (cluster (net_cut directory_bytes [x01; x61])) ric [] start =
    ((None, Some cut),
     {| sent := [directory_request (cluster net_down);
                 post_to "10.0.0.2:9000" "/read" [x07]];
        slept := [];
        bodies := [drained_body (fresh_body directory_bytes None);
                   drained_body (fresh_body [x01; x61] (Some cut))] |}) ∧
  ∃ rc,
    [drained_body (fresh_body directory_bytes None);
     drained_body (fresh_body [x01; x61] (Some cut))] !! 1%nat = Some rc ∧
    close_calls rc = 0%nat.
Proof.
  apply (CreateIterator_reply_error
           (cluster (net_cut directory_bytes [x01; x61])) ric [] start [x07]
           {| StatusCode := 200; Body := 1 |}
           {| sent := [directory_request (cluster net_down);
                       post_to "10.0.0.2:9000" "/read" [x07]];
              slept := [];
              bodies := [drained_body (fresh_body directory_bytes None);
                         fresh_body [x01; x61] (Some cut)] |}
           (Err cut)).
  - reflexivity.
  - vm_compute. reflexivity.
  - vm_compute. reflexivity.
  - left. reflexivity.
Defined.

End OperationsCoverage.
